(** * cdk-learning-samples: the Lambda handlers of the two samples

    Sample 02 (simple API server) is a CRUD handler over one DynamoDB
    table; sample 03 (file upload system) is an HTTP handler issuing
    presigned URLs over two S3 buckets, plus an S3-event handler that
    validates uploaded objects and moves them to the processed bucket or
    to a quarantine prefix.

    The handlers are embedded as functions in a state-and-exception monad
    over a model of the service they call.  The Python library functions
    they rely on ([os.path.splitext], [str.lower], [int], [unquote_plus],
    [str.startswith], [str.split]) are written out on byte strings. *)

From Stdlib Require Import ZArith Ascii String.
From stdpp Require Import base option list gmap strings fin_maps pretty.

Local Open Scope Z_scope.

(* ===================================================================== *)
(** * Python values, exceptions and library functions                     *)
(* ===================================================================== *)

Module Py.

(** What [json.loads] produces, floats left out.  Numbers read back from
    the table are kept as the same integers. *)
#[warnings="-register-all"]
Inductive Value : Type :=
  | VNone
  | VBool (b : bool)
  | VInt (z : Z)
  | VStr (s : string)
  | VList (l : list Value)
  | VDict (d : gmap string Value).

(** Truth value testing: [if v:] / [if not v:]. *)
Definition truthy (v : Value) : bool :=
  match v with
  | VNone => false
  | VBool b => b
  | VInt z => negb (z =? 0)
  | VStr s => negb (String.eqb s "")
  | VList l => match l with [] => false | _ => true end
  | VDict d => negb (bool_decide (d = ∅))
  end.

(** An exception instance: its class and [str(e)]. *)
Record Exc : Type := MkExc { exc_class : string; exc_str : string }.

Inductive outcome (A : Type) : Type :=
  | Ret (a : A)
  | Raise (e : Exc).
Arguments Ret {A} a.
Arguments Raise {A} e.

(** Computations over a world [W] that return or raise. *)
Definition M (W A : Type) : Type := W → outcome A * W.

Definition ret {W A} (a : A) : M W A := λ w, (Ret a, w).
Definition raise {W A} (e : Exc) : M W A := λ w, (Raise e, w).
Definition bind {W A B} (m : M W A) (k : A → M W B) : M W B :=
  λ w, match m w with
       | (Ret a, w') => k a w'
       | (Raise e, w') => (Raise e, w')
       end.
(** [try: m  except Exception as e: h e] *)
Definition try_except {W A} (m : M W A) (h : Exc → M W A) : M W A :=
  λ w, match m w with
       | (Ret a, w') => (Ret a, w')
       | (Raise e, w') => h e w'
       end.
Definition lift {W A} (o : outcome A) : M W A := λ w, (o, w).

Declare Scope py_scope.
Delimit Scope py_scope with py.
Notation "'let*' x ':=' m 'in' k" := (bind m (λ x, k))
  (at level 10, x name, m at level 100, k at level 200) : py_scope.
Notation "'run' m 'in' k" := (bind m (λ _, k))
  (at level 10, m at level 100, k at level 200) : py_scope.

(** ** Strings *)

Fixpoint str_take (n : nat) (s : string) : string :=
  match n, s with
  | S n', String c t => String c (str_take n' t)
  | _, _ => EmptyString
  end.

Fixpoint str_drop (n : nat) (s : string) : string :=
  match n, s with
  | S n', String _ t => str_drop n' t
  | _, _ => s
  end.

(** [s.startswith(prefix)] *)
Fixpoint startswith (pre s : string) : bool :=
  match pre, s with
  | EmptyString, _ => true
  | String a pre', String b s' => Ascii.eqb a b && startswith pre' s'
  | String _ _, EmptyString => false
  end.

(** [p.rfind(c)] for a one-character [c]: the highest index, or -1. *)
Fixpoint rfind_from (c : ascii) (p : string) (i acc : Z) : Z :=
  match p with
  | EmptyString => acc
  | String x t => rfind_from c t (i + 1) (if Ascii.eqb x c then i else acc)
  end.
Definition rfind (c : ascii) (p : string) : Z := rfind_from c p 0 (-1).

(** The loop of [genericpath._splitext] that skips leading dots:
    [while filenameIndex < dotIndex: if p[filenameIndex] != '.': return
    (split); filenameIndex += 1].  [true] when the loop returns the
    split; [fuel] is [dotIndex - filenameIndex]. *)
Fixpoint skip_leading_dots (p : string) (filenameIndex : Z) (fuel : nat) : bool :=
  match fuel with
  | O => false
  | S fuel' =>
      match String.get (Z.to_nat filenameIndex) p with
      | Some "."%char => skip_leading_dots p (filenameIndex + 1) fuel'
      | _ => true
      end
  end.

(** [os.path.splitext(p)] of posixpath: [sep = '/'], no [altsep],
    [extsep = '.']. *)
Definition splitext (p : string) : string * string :=
  let sepIndex := rfind "/" p in
  let dotIndex := rfind "." p in
  if (dotIndex >? sepIndex)
     && skip_leading_dots p (sepIndex + 1) (Z.to_nat (dotIndex - (sepIndex + 1)))
  then (str_take (Z.to_nat dotIndex) p, str_drop (Z.to_nat dotIndex) p)
  else (p, EmptyString).

(** [str.lower] on the ASCII range; bytes outside it are kept. *)
Definition lower_ascii (c : ascii) : ascii :=
  let n := N_of_ascii c in
  if ((65 <=? n) && (n <=? 90))%N then ascii_of_N (n + 32) else c.

Fixpoint lower (s : string) : string :=
  match s with
  | EmptyString => EmptyString
  | String c t => String (lower_ascii c) (lower t)
  end.

(** [s.split(',')] *)
Fixpoint split_go (sep : ascii) (s : string) (cur : string) : list string :=
  match s with
  | EmptyString => [String.rev cur]
  | String c t =>
      if Ascii.eqb c sep then String.rev cur :: split_go sep t EmptyString
      else split_go sep t (String c cur)
  end.
Definition split (sep : ascii) (s : string) : list string :=
  split_go sep s EmptyString.

(** ** [int(s)] for a string, base 10, on the ASCII range: surrounding
    white space, an optional sign, digits with single underscores between
    them.  [None] is [ValueError].  No bound on the number of digits. *)
Definition is_space (c : ascii) : bool :=
  match c with
  | "009" | "010" | "011" | "012" | "013" | "028" | "029" | "030" | "031"
  | " " => true
  | _ => false
  end%char.

Fixpoint lstrip (s : string) : string :=
  match s with
  | String c t => if is_space c then lstrip t else s
  | EmptyString => EmptyString
  end.
Definition strip (s : string) : string :=
  String.rev (lstrip (String.rev (lstrip s))).

Fixpoint parse_digits (s : string) (acc : Z) (after_digit : bool) : option Z :=
  match s with
  | EmptyString => if after_digit then Some acc else None
  | String c t =>
      match Ascii.is_nat c with
      | Some d => parse_digits t (10 * acc + Z.of_nat d) true
      | None =>
          if Ascii.eqb c "_" && after_digit then parse_digits t acc false
          else None
      end
  end.

Definition int_of_str (s : string) : option Z :=
  match strip s with
  | String "-" t => Z.opp <$> parse_digits t 0 false
  | String "+" t => parse_digits t 0 false
  | t => parse_digits t 0 false
  end.

(** ** [urllib.parse.unquote_plus] on bytes: ['+'] is a space, ["%XX"]
    with two hex digits is the byte, anything else is kept. *)
Definition hex_digit (c : ascii) : option N :=
  let n := N_of_ascii c in
  if ((48 <=? n) && (n <=? 57))%N then Some (n - 48)%N
  else if ((65 <=? n) && (n <=? 70))%N then Some (n - 55)%N
  else if ((97 <=? n) && (n <=? 102))%N then Some (n - 87)%N
  else None.

Fixpoint unquote (s : string) : string :=
  match s with
  | EmptyString => EmptyString
  | String c t =>
      if Ascii.eqb c "%" then
        match t with
        | String a (String b r) =>
            match hex_digit a, hex_digit b with
            | Some x, Some y => String (ascii_of_N (16 * x + y)) (unquote r)
            | _, _ => String c (unquote t)
            end
        | _ => String c (unquote t)
        end
      else String c (unquote t)
  end.

Fixpoint plus_to_space (s : string) : string :=
  match s with
  | EmptyString => EmptyString
  | String c t => String (if Ascii.eqb c "+" then " "%char else c) (plus_to_space t)
  end.

Definition unquote_plus (s : string) : string := unquote (plus_to_space s).

(** [v > n] for an [int] [n]: defined on ints and bools, [TypeError] on
    the other JSON values. *)
Definition gt_int (v : Value) (n : Z) : outcome bool :=
  match v with
  | VInt z => Ret (z >? n)
  | VBool b => Ret ((if b then 1 else 0) >? n)
  | _ => Raise (MkExc "TypeError" "'>' not supported between these instances")
  end.

(** ** The process around a handler: [uuid.uuid4()] draws the next value
    of the generator, [datetime.now().isoformat()] reads the clock. *)
Record Runtime : Type := MkRuntime {
  uuid_stream : nat → string;
  uuid_drawn : nat;
  wall_clock : string
}.

Record Process (Svc : Type) : Type := MkProcess {
  runtime : Runtime;
  service : Svc
}.
Arguments MkProcess {Svc} runtime service.
Arguments runtime {Svc} _.
Arguments service {Svc} _.

Definition uuid4 {Svc} : M (Process Svc) string := λ w,
  let r := runtime w in
  (Ret (uuid_stream r (uuid_drawn r)),
   MkProcess {| uuid_stream := uuid_stream r; uuid_drawn := S (uuid_drawn r);
              wall_clock := wall_clock r |} (service w)).

Definition datetime_now_isoformat {Svc} : M (Process Svc) string := λ w,
  (Ret (wall_clock (runtime w)), w).

(** A call on the service client, run inside the process. *)
Definition on_service {Svc A} (m : M Svc A) : M (Process Svc) A := λ w,
  let '(o, s') := m (service w) in (o, MkProcess (runtime w) s').

(** The identifiers drawn so far. *)
Definition issued (r : Runtime) : list string :=
  uuid_stream r <$> seq 0 (uuid_drawn r).

End Py.

(* ===================================================================== *)
(** * The response envelope of both HTTP handlers                         *)
(* ===================================================================== *)

Module Http.
Import Py.

(** [body] is the dictionary handed to [json.dumps], which goes through
    on every [Value]. *)
Record Response : Type := MkResponse {
  statusCode : Z;
  headers : list (string * string);
  body : gmap string Value
}.

Definition create_response (status_code : Z) (body : gmap string Value) : Response :=
  {| statusCode := status_code;
     headers := [("Content-Type", "application/json");
                 ("Access-Control-Allow-Origin", "*");
                 ("Access-Control-Allow-Methods", "GET,POST,PUT,DELETE,OPTIONS");
                 ("Access-Control-Allow-Headers", "Content-Type,X-Api-Key")];
     body := body |}.

(** [d.get(key)] / [d.get(key, default)] on a value that has to be a
    dictionary. *)
Definition dict_get (d : Value) (key : string) (dflt : Value) : outcome Value :=
  match d with
  | VDict m => Ret (default dflt (m !! key))
  | _ => Raise (MkExc "AttributeError" "object has no attribute 'get'")
  end.

Definition dict_items (d : Value) : outcome (gmap string Value) :=
  match d with
  | VDict m => Ret m
  | _ => Raise (MkExc "AttributeError" "object has no attribute 'items'")
  end.

End Http.


(* ===================================================================== *)
(** * The S3 client                                                       *)
(* ===================================================================== *)

(** The object store behind [boto3.client('s3')]: objects by bucket and
    key, the calls issued so far, and the failures the service has in
    store for the coming calls ([Some msg]: the next call raises a
    [ClientError] with that message and changes nothing). *)
Module S3.
Import Py.

Record Object : Type := MkObject {
  Body : string;
  ContentType : string;
  Metadata : gmap string string
}.

Inductive Call : Type :=
  | HeadObject (bucket key : string)
  | GetObject (bucket key : string)
  | PutObject (bucket key : string)
  | CopyObject (src_bucket src_key bucket key : string)
  | DeleteObject (bucket key : string)
  | ListObjectsV2 (bucket prefix : string)
  | GeneratePresignedUrl (method bucket key : string).

Record PresignParams : Type := MkPresignParams {
  PBucket : string;
  PKey : string;
  PContentType : option string;
  PMetadata : gmap string string
}.

Record World : Type := MkWorld {
  objects : gmap (string * string) Object;
  faults : list (option string);
  calls : list Call;
  (** the client's signer: method, parameters, validity in seconds *)
  signer : string → PresignParams → Z → string
}.

Record Response : Type := MkResponse {
  ContentLength : Z;
  RContentType : option string;
  RMetadata : gmap string string;
  RBody : string
}.

Definition response_of (o : Object) : Response :=
  {| ContentLength := Z.of_nat (String.length (Body o));
     RContentType := Some (ContentType o);
     RMetadata := Metadata o;
     RBody := Body o |}.

Definition client_error (msg : string) : Exc := MkExc "ClientError" msg.

(** Every client call is recorded and takes the next entry of [faults]. *)
Definition after_request (c : Call) (w : World) : World :=
  {| objects := objects w; faults := tail (faults w);
     calls := calls w ++ [c]; signer := signer w |}.

Definition set_objects (os : gmap (string * string) Object) (w : World) : World :=
  {| objects := os; faults := faults w; calls := calls w; signer := signer w |}.

(** The failure waiting for the next call, and the first one waiting
    among the next [n] calls. *)
Definition next_fault (w : World) : option string :=
  match faults w with
  | f :: _ => f
  | [] => None
  end.

Definition first_fault (n : nat) (w : World) : option string :=
  head (omap id (take n (faults w))).

Definition request (c : Call) : M World unit := λ w,
  match next_fault w with
  | Some msg => (Raise (client_error msg), after_request c w)
  | None => (Ret tt, after_request c w)
  end.

Definition read_objects : M World (gmap (string * string) Object) :=
  λ w, (Ret (objects w), w).
Definition write_objects (f : gmap (string * string) Object → gmap (string * string) Object)
  : M World unit :=
  λ w, (Ret tt, set_objects (f (objects w)) w).

Local Open Scope py_scope.

Definition head_object (bucket key : string) : M World Response :=
  run request (HeadObject bucket key) in
  let* os := read_objects in
  match os !! (bucket, key) with
  | Some o => ret (response_of o)
  | None => raise (client_error
      "An error occurred (404) when calling the HeadObject operation: Not Found")
  end.

Definition get_object (bucket key : string) : M World Response :=
  run request (GetObject bucket key) in
  let* os := read_objects in
  match os !! (bucket, key) with
  | Some o => ret (response_of o)
  | None => raise (client_error
      "An error occurred (NoSuchKey) when calling the GetObject operation: The specified key does not exist.")
  end.

Definition put_object (bucket key body content_type : string)
    (metadata : gmap string string) : M World unit :=
  run request (PutObject bucket key) in
  write_objects (insert (bucket, key)
    {| Body := body; ContentType := content_type; Metadata := metadata |}).

(** [copy_object] with [MetadataDirective='REPLACE'] and no content type
    in the request: the bytes are the source's, the user metadata is the
    request's, the content type falls back to the service default. *)
Definition copied (o : Object) (metadata : gmap string string) : Object :=
  {| Body := Body o; ContentType := "binary/octet-stream"; Metadata := metadata |}.

Definition copy_object (src_bucket src_key bucket key : string)
    (metadata : gmap string string) : M World unit :=
  run request (CopyObject src_bucket src_key bucket key) in
  let* os := read_objects in
  match os !! (src_bucket, src_key) with
  | Some o => write_objects (insert (bucket, key) (copied o metadata))
  | None => raise (client_error
      "An error occurred (NoSuchKey) when calling the CopyObject operation: The specified key does not exist.")
  end.

(** Deleting a key that is absent succeeds. *)
Definition delete_object (bucket key : string) : M World unit :=
  run request (DeleteObject bucket key) in
  write_objects (delete (bucket, key)).

(** [list_objects_v2(Bucket, Prefix)]: the value of ['Contents'], which
    is absent from the response exactly when this list is empty. *)
Definition list_objects_v2 (bucket prefix : string) : M World (list (string * Object)) :=
  run request (ListObjectsV2 bucket prefix) in
  let* os := read_objects in
  ret (omap (λ '((b, k), o),
         if bool_decide (b = bucket) && startswith prefix k
         then Some (k, o) else None) (map_to_list os)).

(** Some object of the bucket has a key with this prefix. *)
Definition stored_under (w : World) (bucket prefix : string) : Prop :=
  ∃ k o, objects w !! (bucket, k) = Some o ∧ startswith prefix k = true.

(** ['Contents' in response] *)
Definition has_contents (contents : list (string * Object)) : bool :=
  match contents with [] => false | _ => true end.

Definition generate_presigned_url (method : string) (params : PresignParams)
    (expires_in : Z) : M World string :=
  run request (GeneratePresignedUrl method (PBucket params) (PKey params)) in
  λ w, (Ret (signer w method params expires_in), w).

End S3.

(* ===================================================================== *)
(** * Configuration from the environment (sample 03)                      *)
(* ===================================================================== *)

Module Env.
Import Py.

Record Config : Type := MkConfig {
  UPLOAD_BUCKET : string;
  PROCESSED_BUCKET : string;
  MAX_FILE_SIZE_MB : Z;
  ALLOWED_FILE_TYPES : list string;
  ENABLE_VIRUS_SCAN : bool;
  ENABLE_IMAGE_RESIZE : bool
}.

(** The module-level reads of [os.environ]; [None] when a required
    variable is missing or [int] fails. *)
Definition load (environ : gmap string string) : option Config :=
  upload ← environ !! "UPLOAD_BUCKET";
  processed ← environ !! "PROCESSED_BUCKET";
  max_mb ← int_of_str (default "10" (environ !! "MAX_FILE_SIZE_MB"));
  Some {| UPLOAD_BUCKET := upload;
          PROCESSED_BUCKET := processed;
          MAX_FILE_SIZE_MB := max_mb;
          ALLOWED_FILE_TYPES :=
            split "," (default ".jpg,.png,.pdf" (environ !! "ALLOWED_FILE_TYPES"));
          ENABLE_VIRUS_SCAN :=
            String.eqb (lower (default "false" (environ !! "ENABLE_VIRUS_SCAN"))) "true";
          ENABLE_IMAGE_RESIZE :=
            String.eqb (lower (default "true" (environ !! "ENABLE_IMAGE_RESIZE"))) "true" |}.

Definition default_allowed : list string := [".jpg"; ".png"; ".pdf"].

End Env.

(* ===================================================================== *)
(** * samples/03-file-upload-system/lambda/file_processor.py              *)
(* ===================================================================== *)

Module FileProcessor.
Import Py S3 Env.
Local Open Scope py_scope.

(** One entry of [event['Records']]. *)
Record Record_ : Type := MkRecord {
  eventSource : string;
  eventName : string;
  s3_bucket_name : string;
  s3_object_key : string
}.

Record HandlerResult : Type := MkHandlerResult {
  statusCode : Z;
  body : string
}.

Section WithConfig.
Variable cfg : Config.

Definition validate_file (object_key : string) (file_size : Z)
    (content_type : string) : bool :=
  let max_size_bytes := MAX_FILE_SIZE_MB cfg * 1024 * 1024 in
  if file_size >? max_size_bytes then false
  else
    let file_extension := lower (splitext object_key).2 in
    if negb (bool_decide (file_extension ∈ ALLOWED_FILE_TYPES cfg)) then false
    else true.

Definition processed_metadata (object_key : string) : gmap string string :=
  {[ "original-key" := object_key;
     "processed-by" := "file-upload-system";
     "processing-status" := "completed" ]}.

Definition quarantine_metadata (object_key reason : string) : gmap string string :=
  {[ "quarantine-reason" := reason;
     "original-key" := object_key;
     "quarantined-by" := "file-upload-system" ]}.

Definition process_image (bucket_name object_key : string) : M World unit :=
  try_except
    (let processed_key := "processed/" +:+ object_key in
     let* response := get_object bucket_name object_key in
     let file_content := RBody response in
     run put_object (PROCESSED_BUCKET cfg) processed_key file_content
           (default "application/octet-stream" (RContentType response))
           (processed_metadata object_key) in
     delete_object bucket_name object_key)
    (λ e, raise e).

Definition move_to_processed (bucket_name object_key : string) : M World unit :=
  try_except
    (let processed_key := "processed/" +:+ object_key in
     run copy_object bucket_name object_key (PROCESSED_BUCKET cfg) processed_key
           (processed_metadata object_key) in
     delete_object bucket_name object_key)
    (λ e, raise e).

Definition move_to_quarantine (bucket_name object_key reason : string) : M World unit :=
  try_except
    (let quarantine_key := "quarantine/" +:+ object_key in
     run copy_object bucket_name object_key bucket_name quarantine_key
           (quarantine_metadata object_key reason) in
     delete_object bucket_name object_key)
    (λ e, raise e).

Definition process_uploaded_file (bucket_name object_key : string) : M World unit :=
  try_except
    (let* response := head_object bucket_name object_key in
     let file_size := ContentLength response in
     let content_type := default "" (RContentType response) in
     if negb (validate_file object_key file_size content_type) then
       move_to_quarantine bucket_name object_key "Validation failed"
     else if startswith "image/" content_type && ENABLE_IMAGE_RESIZE cfg then
       process_image bucket_name object_key
     else
       move_to_processed bucket_name object_key)
    (λ e, move_to_quarantine bucket_name object_key
            ("Processing error: " +:+ exc_str e)).

Definition process_s3_event (record : Record_) : M World unit :=
  let bucket_name := s3_bucket_name record in
  let object_key := unquote_plus (s3_object_key record) in
  let event_name := eventName record in
  if startswith "ObjectCreated" event_name then
    process_uploaded_file bucket_name object_key
  else if startswith "ObjectRemoved" event_name then
    ret tt
  else ret tt.

Fixpoint for_records (records : list Record_) : M World unit :=
  match records with
  | [] => ret tt
  | record :: rest =>
      run (if String.eqb (eventSource record) "aws:s3"
           then process_s3_event record else ret tt) in
      for_records rest
  end.

Definition lambda_handler (event_Records : list Record_) : M World HandlerResult :=
  try_except
    (run for_records event_Records in
     ret {| statusCode := 200; body := "Successfully processed files" |})
    (λ e, raise e).

End WithConfig.
End FileProcessor.

(* ===================================================================== *)
(** * samples/03-file-upload-system/lambda/api_handler.py                 *)
(* ===================================================================== *)

Module UploadApi.
Import Py S3 Env Http.
Local Open Scope py_scope.

Section WithConfig.
Variable cfg : Config.

Definition validate_upload_request (filename file_size : Value) : outcome bool :=
  match filename with
  | VStr filename =>
      let file_extension := lower (splitext filename).2 in
      if negb (bool_decide (file_extension ∈ ALLOWED_FILE_TYPES cfg)) then Ret false
      else
        let max_size_bytes := MAX_FILE_SIZE_MB cfg * 1024 * 1024 in
        match gt_int file_size max_size_bytes with
        | Ret true => Ret false
        | Ret false => Ret true
        | Raise e => Raise e
        end
  | _ => Raise (MkExc "TypeError" "expected str, bytes or os.PathLike object")
  end.

(** [f"uploads/{file_id}/{filename}"] *)
Definition upload_key (file_id filename : string) : string :=
  "uploads/" +:+ file_id +:+ "/" +:+ filename.

(** The boto3 parameter check of the presign call: the content type has
    to be a string. *)
Definition presign_content_type (content_type : Value) : outcome (option string) :=
  match content_type with
  | VStr s => Ret (Some s)
  | _ => Raise (MkExc "ParamValidationError" "Invalid type for parameter ContentType")
  end.

(** [filename] inside the f-string of the key and in the metadata: a
    string by then, [validate_upload_request] has raised on the others. *)
Definition as_str (v : Value) : string :=
  match v with VStr s => s | _ => "" end.

Definition get_upload_url (body : Value) : M (Process S3.World) Response :=
  try_except
    (if negb (truthy body) then
       ret (create_response 400 {[ "error" := VStr "Request body required" ]})
     else
       let* filename := lift (dict_get body "filename" VNone) in
       let* content_type :=
         lift (dict_get body "content_type" (VStr "application/octet-stream")) in
       let* file_size := lift (dict_get body "file_size" (VInt 0)) in
       if negb (truthy filename) then
         ret (create_response 400 {[ "error" := VStr "filename is required" ]})
       else
         let* valid := lift (validate_upload_request filename file_size) in
         if negb valid then
           ret (create_response 400 {[ "error" := VStr "Invalid file" ]})
         else
           let* file_id := uuid4 in
           let file_key := upload_key file_id (as_str filename) in
           let* upload_time := datetime_now_isoformat in
           let* ct := lift (presign_content_type content_type) in
           let* presigned_url := on_service (generate_presigned_url "put_object"
             {| PBucket := UPLOAD_BUCKET cfg;
                PKey := file_key;
                PContentType := ct;
                PMetadata := {[ "file-id" := file_id;
                                "original-filename" := as_str filename;
                                "upload-time" := upload_time ]} |}
             900) in
           ret (create_response 200
             {[ "upload_url" := VStr presigned_url;
                "file_id" := VStr file_id;
                "file_key" := VStr file_key;
                "expires_in" := VInt 900;
                "instructions" := VDict
                  {[ "method" := VStr "PUT";
                     "headers" := VDict {[ "Content-Type" := content_type ]} ]} ]}))
    (λ e, ret (create_response 500 {[ "error" := VStr "Failed to generate upload URL" ]})).

Definition get_processing_status (file_id : string) : M (Process S3.World) Response :=
  try_except
    (if String.eqb file_id "" then
       ret (create_response 400 {[ "error" := VStr "file_id is required" ]})
     else
       let* upload_objects := on_service (list_objects_v2 (UPLOAD_BUCKET cfg)
                                ("uploads/" +:+ file_id +:+ "/")) in
       let* processed_objects := on_service (list_objects_v2 (PROCESSED_BUCKET cfg)
                                ("processed/uploads/" +:+ file_id +:+ "/")) in
       let '(status, message) :=
         if has_contents processed_objects then
           ("completed", "File processing completed")
         else if has_contents upload_objects then
           ("processing", "File is being processed")
         else ("not_found", "File not found") in
       ret (create_response 200
         {[ "file_id" := VStr file_id;
            "status" := VStr status;
            "message" := VStr message ]}))
    (λ e, ret (create_response 500 {[ "error" := VStr "Failed to check processing status" ]})).

End WithConfig.
End UploadApi.

(* ===================================================================== *)
(** * The DynamoDB table                                                  *)
(* ===================================================================== *)

(** The table behind [dynamodb.Table(table_name)], with the string
    attribute [id] as its key.  An update expression is kept as the list
    of its [SET] clauses, attribute name and value placeholder. *)
Module DynamoDB.
Import Py.

Inductive Call : Type :=
  | Scan (limit : option Z)
  | GetItem (id : string)
  | PutItem (id : string)
  | UpdateItem (id : string) (clauses : list (string * string))
  | DeleteItem (id : string).

Record World : Type := MkWorld {
  items : gmap string (gmap string Value);
  faults : list (option string);
  calls : list Call;
  (** whether the expression grammar takes the string as an attribute
      name: an identifier that is not one of the reserved words *)
  accepts_name : string → bool
}.

Definition client_error (msg : string) : Exc := MkExc "ClientError" msg.

Definition after_request (c : Call) (w : World) : World :=
  {| items := items w; faults := tail (faults w);
     calls := calls w ++ [c]; accepts_name := accepts_name w |}.

Definition set_items (its : gmap string (gmap string Value)) (w : World) : World :=
  {| items := its; faults := faults w; calls := calls w;
     accepts_name := accepts_name w |}.

Definition next_fault (w : World) : option string :=
  match faults w with
  | f :: _ => f
  | [] => None
  end.

Definition request (c : Call) : M World unit := λ w,
  match next_fault w with
  | Some msg => (Raise (client_error msg), after_request c w)
  | None => (Ret tt, after_request c w)
  end.

Definition read_items : M World (gmap string (gmap string Value)) :=
  λ w, (Ret (items w), w).
Definition write_items
    (f : gmap string (gmap string Value) → gmap string (gmap string Value))
  : M World unit :=
  λ w, (Ret tt, set_items (f (items w)) w).
Definition name_check (clauses : list (string * string)) : M World bool :=
  λ w, (Ret (forallb (λ c, accepts_name w c.1) clauses), w).

Local Open Scope py_scope.

(** [table.scan] with its keyword arguments: the value of ['Items'].  A [Limit] below 1
    is refused by the client; with a [Limit] the page holds at most that
    many items. *)
Definition scan (limit : option Z) : M World (list (gmap string Value)) :=
  match limit with
  | Some n =>
      if n <? 1 then
        raise (MkExc "ParamValidationError"
                 "Invalid value for parameter Limit, valid min value: 1")
      else
        run request (Scan limit) in
        let* its := read_items in
        ret (take (Z.to_nat n) (map_to_list its).*2)
  | None =>
      run request (Scan limit) in
      let* its := read_items in
      ret (map_to_list its).*2
  end.

(** [table.get_item(Key={'id': id})]: the value of ['Item'], if any. *)
Definition get_item (id : string) : M World (option (gmap string Value)) :=
  run request (GetItem id) in
  let* its := read_items in
  ret (its !! id).

Definition put_item (item : gmap string Value) : M World unit :=
  match item !! "id" with
  | Some (VStr id) =>
      run request (PutItem id) in
      write_items (insert id item)
  | _ => raise (client_error
      "An error occurred (ValidationException) when calling the PutItem operation: key element does not match the schema")
  end.

Definition apply_set (values : gmap string Value) (item : gmap string Value)
    (clause : string * string) : gmap string Value :=
  match values !! clause.2 with
  | Some v => <[clause.1 := v]> item
  | None => item
  end.

(** [table.update_item(Key, UpdateExpression, ExpressionAttributeValues,
    ReturnValues='ALL_NEW')]: the value of ['Attributes'].  The service
    refuses names its grammar does not take, an assignment to the key,
    two clauses on one attribute and unbound placeholders; an absent item
    is created. *)
Definition update_item (id : string) (clauses : list (string * string))
    (values : gmap string Value) : M World (gmap string Value) :=
  run request (UpdateItem id clauses) in
  let* names_ok := name_check clauses in
  if negb names_ok then
    raise (client_error
      "An error occurred (ValidationException) when calling the UpdateItem operation: Invalid UpdateExpression: attribute name is a reserved keyword or not an identifier")
  else if bool_decide ("id" ∈ clauses.*1) then
    raise (client_error
      "An error occurred (ValidationException) when calling the UpdateItem operation: Cannot update attribute id. This attribute is part of the key")
  else if negb (bool_decide (NoDup clauses.*1)) then
    raise (client_error
      "An error occurred (ValidationException) when calling the UpdateItem operation: Invalid UpdateExpression: Two document paths overlap with each other")
  else if negb (forallb (λ c, bool_decide (is_Some (values !! c.2))) clauses) then
    raise (client_error
      "An error occurred (ValidationException) when calling the UpdateItem operation: Invalid UpdateExpression: An expression attribute value used in expression is not defined")
  else
    let* its := read_items in
    let old := default {[ "id" := VStr id ]} (its !! id) in
    let new := foldl (apply_set values) old clauses in
    run write_items (insert id new) in
    ret new.

Definition delete_item (id : string) : M World unit :=
  run request (DeleteItem id) in
  write_items (delete id).

End DynamoDB.

(* ===================================================================== *)
(** * samples/02-simple-api-server/lambda/api_handler.py                  *)
(* ===================================================================== *)

Module ItemApi.
Import Py Http.
Local Open Scope py_scope.

Section WithDatetime.
(** [datetime.fromisoformat(s).strftime(fmt)] for the display format of
    [format_datetime], [None] when [fromisoformat] raises. *)
Variable display_of_iso : string → option string.

(** [s.replace('Z', '+00:00')] *)
Fixpoint replace_Z (s : string) : string :=
  match s with
  | EmptyString => EmptyString
  | String c t =>
      if Ascii.eqb c "Z" then "+00:00" +:+ replace_Z t else String c (replace_Z t)
  end.

Definition format_datetime (iso_string : Value) : Value :=
  match iso_string with
  | VStr s =>
      match display_of_iso (replace_Z s) with
      | Some shown => VStr shown
      | None => iso_string
      end
  | _ => iso_string
  end.

Definition format_item (item : gmap string Value) : gmap string Value :=
  let formatted := item in
  let formatted :=
    match formatted !! "created_at" with
    | Some v => <["created_at_display" := format_datetime v]> formatted
    | None => formatted
    end in
  let formatted :=
    match formatted !! "updated_at" with
    | Some v => <["updated_at_display" := format_datetime v]> formatted
    | None => formatted
    end in
  formatted.

Definition get_all_items (query_params : gmap string string)
  : M (Process DynamoDB.World) Response :=
  try_except
    (let continue (limit : option Z) : M (Process DynamoDB.World) Response :=
       let scan_kwargs_Limit :=
         match limit with
         | Some n => if truthy (VInt n) then Some n else None
         | None => None
         end in
       let* response_Items := on_service (DynamoDB.scan scan_kwargs_Limit) in
       let items := format_item <$> response_Items in
       ret (create_response 200
         {[ "items" := VList (VDict <$> items);
            "count" := VInt (Z.of_nat (length items));
            "message" := VStr ("Successfully retrieved " +:+ pretty (length items)
                               +:+ " items") ]}) in
     match query_params !! "limit" with
     | Some s =>
         match int_of_str s with
         | Some n => continue (Some n)
         | None => ret (create_response 400 {[ "error" := VStr "Invalid limit parameter" ]})
         end
     | None => continue None
     end)
    (λ e, ret (create_response 500 {[ "error" := VStr "Failed to retrieve items" ]})).

Definition get_item (item_id : string) : M (Process DynamoDB.World) Response :=
  try_except
    (let* response_Item := on_service (DynamoDB.get_item item_id) in
     match response_Item with
     | None =>
         ret (create_response 404
           {[ "error" := VStr ("Item with id " +:+ item_id +:+ " not found") ]})
     | Some it =>
         ret (create_response 200 {[ "item" := VDict (format_item it) ]})
     end)
    (λ e, ret (create_response 500 {[ "error" := VStr "Failed to retrieve item" ]})).

(** The loop of [create_item] over [body.items()]. *)
Definition merge_created (fields item : gmap string Value) : gmap string Value :=
  map_fold (λ key value item,
    if bool_decide (key ∈ ["id"; "created_at"; "updated_at"]) then item
    else <[key := value]> item) item fields.

Definition create_item (body : Value) : M (Process DynamoDB.World) Response :=
  try_except
    (if negb (truthy body) then
       ret (create_response 400 {[ "error" := VStr "Request body is required" ]})
     else
       let* item_id := uuid4 in
       let* current_time := datetime_now_isoformat in
       let* name := lift (dict_get body "name" (VStr "Untitled")) in
       let* description := lift (dict_get body "description" (VStr "")) in
       let* category := lift (dict_get body "category" (VStr "general")) in
       let item : gmap string Value :=
         {[ "id" := VStr item_id;
            "name" := name;
            "description" := description;
            "category" := category;
            "created_at" := VStr current_time;
            "updated_at" := VStr current_time;
            "status" := VStr "active" ]} in
       let* fields := lift (dict_items body) in
       let item := merge_created fields item in
       run on_service (DynamoDB.put_item item) in
       let formatted_item := format_item item in
       ret (create_response 201
         {[ "item" := VDict formatted_item;
            "message" := VStr ("Item " +:+ item_id +:+ " created successfully") ]}))
    (λ e, ret (create_response 500 {[ "error" := VStr "Failed to create item" ]})).

(** The loop of [update_item] over [body.items()]: the clauses of the
    update expression and the expression values. *)
Definition build_update (fields : gmap string Value)
    (init : list (string * string) * gmap string Value)
  : list (string * string) * gmap string Value :=
  map_fold (λ key value acc,
    if bool_decide (key ∈ ["id"; "created_at"]) then acc
    else (acc.1 ++ [(key, ":" +:+ key)], <[":" +:+ key := value]> acc.2))
    init fields.

Definition update_item (item_id : string) (body : Value)
  : M (Process DynamoDB.World) Response :=
  try_except
    (if negb (truthy body) then
       ret (create_response 400 {[ "error" := VStr "Request body is required" ]})
     else
       let* existing_Item := on_service (DynamoDB.get_item item_id) in
       match existing_Item with
       | None =>
           ret (create_response 404
             {[ "error" := VStr ("Item with id " +:+ item_id +:+ " not found") ]})
       | Some _ =>
           let* now := datetime_now_isoformat in
           let update_expression := [("updated_at", ":updated_at")] in
           let expression_values : gmap string Value :=
             {[ ":updated_at" := VStr now ]} in
           let* fields := lift (dict_items body) in
           let '(update_expression, expression_values) :=
             build_update fields (update_expression, expression_values) in
           let* response_Attributes :=
             on_service (DynamoDB.update_item item_id update_expression
                           expression_values) in
           let formatted_item := format_item response_Attributes in
           ret (create_response 200
             {[ "item" := VDict formatted_item;
                "message" := VStr ("Item " +:+ item_id +:+ " updated successfully") ]})
       end)
    (λ e, ret (create_response 500 {[ "error" := VStr "Failed to update item" ]})).

Definition delete_item (item_id : string) : M (Process DynamoDB.World) Response :=
  try_except
    (let* existing_Item := on_service (DynamoDB.get_item item_id) in
     match existing_Item with
     | None =>
         ret (create_response 404
           {[ "error" := VStr ("Item with id " +:+ item_id +:+ " not found") ]})
     | Some _ =>
         run on_service (DynamoDB.delete_item item_id) in
         ret (create_response 200
           {[ "message" := VStr ("Item " +:+ item_id +:+ " deleted successfully");
              "deleted_id" := VStr item_id ]})
     end)
    (λ e, ret (create_response 500 {[ "error" := VStr "Failed to delete item" ]})).

End WithDatetime.
End ItemApi.


(* ===================================================================== *)
(** * The API Gateway event of both HTTP handlers                         *)
(* ===================================================================== *)

Module Gateway.
Import Py.

(** The event, with what [event.get] finds under each key. *)
Record Event : Type := MkEvent {
  httpMethod : option string;
  path : option string;
  pathParameters : option (gmap string string);
  queryStringParameters : option (gmap string string);
  body : option string
}.

(** [body = event.get('body'); if body: body = json.loads(body)], for a
    given [json.loads]. *)
Definition parse_body (json_loads : string → outcome Value) (body : option string)
  : outcome Value :=
  match body with
  | None => Ret VNone
  | Some s => if String.eqb s "" then Ret (VStr "") else json_loads s
  end.

End Gateway.

(* ===================================================================== *)
(** * samples/03-file-upload-system/lambda/api_handler.py, the file
      registry: listing, information, download, deletion and the router   *)
(* ===================================================================== *)

Module FileRegistry.
Import Py S3 Env Http UploadApi.
Local Open Scope py_scope.

(** What [list_objects_v2] finds in a store: the keys of the bucket that
    begin with the prefix, with their objects. *)
Definition listing (os : gmap (string * string) Object) (bucket prefix : string)
  : list (string * Object) :=
  omap (λ '((b, k), o),
    if bool_decide (b = bucket) && startswith prefix k
    then Some (k, o) else None) (map_to_list os).

Section WithConfig.
Variable cfg : Config.
(** [obj['LastModified'].isoformat()] of the object under a bucket and
    key. *)
Variable last_modified : string → string → string.

(** [obj['Size']] *)
Definition size_of (o : Object) : Z := Z.of_nat (String.length (Body o)).

(** [key.split('/')[i]], [IndexError] beyond the last component. *)
Definition split_index (key : string) (i : nat) : outcome string :=
  match split "/" key !! i with
  | Some part => Ret part
  | None => Raise (MkExc "IndexError" "list index out of range")
  end.

(** The paginator over one bucket and prefix, its pages put end to end;
    the listing is taken to fit one page, so that it is one request. *)
Definition paginate (bucket prefix : string) : M S3.World (list (string * Object)) :=
  list_objects_v2 bucket prefix.

Definition uploaded_entry (obj : string * Object) : outcome Value :=
  match split_index obj.1 1 with
  | Ret file_id =>
      Ret (VDict {[ "file_id" := VStr file_id;
                    "key" := VStr obj.1;
                    "size" := VInt (size_of obj.2);
                    "last_modified" := VStr (last_modified (UPLOAD_BUCKET cfg) obj.1);
                    "status" := VStr "uploaded";
                    "bucket" := VStr "upload" ]})
  | Raise e => Raise e
  end.

Definition processed_entry (obj : string * Object) : Value :=
  VDict {[ "file_id" := VStr (default "unknown" (split "/" obj.1 !! 2%nat));
           "key" := VStr obj.1;
           "size" := VInt (size_of obj.2);
           "last_modified" := VStr (last_modified (PROCESSED_BUCKET cfg) obj.1);
           "status" := VStr "processed";
           "bucket" := VStr "processed" ]}.

(** [for obj in ...: files.append(...)] over the incoming listing. *)
Fixpoint append_uploaded (contents : list (string * Object)) (files : list Value)
  : outcome (list Value) :=
  match contents with
  | [] => Ret files
  | obj :: rest =>
      match uploaded_entry obj with
      | Ret entry => append_uploaded rest (files ++ [entry])
      | Raise e => Raise e
      end
  end.

Definition list_files : M (Process S3.World) Response :=
  try_except
    (let files := [] in
     let* uploaded := on_service (paginate (UPLOAD_BUCKET cfg) "uploads/") in
     let* files := lift (append_uploaded uploaded files) in
     let* processed := on_service (paginate (PROCESSED_BUCKET cfg) "processed/") in
     let files := files ++ (processed_entry <$> processed) in
     ret (create_response 200
       {[ "files" := VList files;
          "count" := VInt (Z.of_nat (length files)) ]}))
    (λ e, ret (create_response 500 {[ "error" := VStr "Failed to list files" ]})).

(** The body of one of the two searches of [get_file_info]: the first
    listed object of the prefix with its [head_object] data, or nothing
    when the prefix is empty. *)
Definition find_info (file_id bucket prefix status bucket_label : string)
  : M S3.World (option Response) :=
  let* objects_Contents := list_objects_v2 bucket prefix in
  match objects_Contents with
  | obj :: _ =>
      let* metadata := head_object bucket obj.1 in
      ret (Some (create_response 200
        {[ "file_id" := VStr file_id;
           "key" := VStr obj.1;
           "size" := VInt (size_of obj.2);
           "last_modified" := VStr (last_modified bucket obj.1);
           "content_type" := match RContentType metadata with
                             | Some ct => VStr ct
                             | None => VNone
                             end;
           "metadata" := VDict (VStr <$> RMetadata metadata);
           "status" := VStr status;
           "bucket" := VStr bucket_label ]}))
  | [] => ret None
  end.

Definition get_file_info (file_id : string) : M (Process S3.World) Response :=
  try_except
    (if String.eqb file_id "" then
       ret (create_response 400 {[ "error" := VStr "file_id is required" ]})
     else
       (* try: ... except: pass *)
       let* found := on_service (try_except
         (find_info file_id (UPLOAD_BUCKET cfg) ("uploads/" +:+ file_id +:+ "/")
            "uploaded" "upload")
         (λ _, ret None)) in
       match found with
       | Some response => ret response
       | None =>
           let* found := on_service (try_except
             (find_info file_id (PROCESSED_BUCKET cfg)
                ("processed/uploads/" +:+ file_id +:+ "/") "processed" "processed")
             (λ _, ret None)) in
           match found with
           | Some response => ret response
           | None =>
               ret (create_response 404
                 {[ "error" := VStr ("File " +:+ file_id +:+ " not found") ]})
           end
       end)
    (λ e, ret (create_response 500 {[ "error" := VStr "Failed to get file info" ]})).

Definition get_download_url (file_id : string) : M (Process S3.World) Response :=
  try_except
    (if String.eqb file_id "" then
       ret (create_response 400 {[ "error" := VStr "file_id is required" ]})
     else
       let* objects_Contents := on_service (list_objects_v2 (PROCESSED_BUCKET cfg)
                                  ("processed/uploads/" +:+ file_id +:+ "/")) in
       match objects_Contents with
       | [] =>
           ret (create_response 404
             {[ "error" := VStr "File not found or not processed yet" ]})
       | obj :: _ =>
           let file_key := obj.1 in
           let* download_url := on_service (generate_presigned_url "get_object"
             {| PBucket := PROCESSED_BUCKET cfg; PKey := file_key;
                PContentType := None; PMetadata := ∅ |} 3600) in
           ret (create_response 200
             {[ "download_url" := VStr download_url;
                "file_id" := VStr file_id;
                "expires_in" := VInt 3600 ]})
       end)
    (λ e, ret (create_response 500 {[ "error" := VStr "Failed to generate download URL" ]})).

(** [for obj in objects.get('Contents', []): delete_object(...);
    deleted_files.append(...)] inside [try: ... except: pass]: a
    failing delete ends the loop and keeps what was appended. *)
Fixpoint delete_listed (bucket label : string) (contents : list (string * Object))
    (deleted_files : list string) : M S3.World (list string) :=
  match contents with
  | [] => ret deleted_files
  | obj :: rest => λ w,
      match delete_object bucket obj.1 w with
      | (Ret _, w') =>
          delete_listed bucket label rest
            (deleted_files ++ [label +:+ ":" +:+ obj.1]) w'
      | (Raise _, w') => (Ret deleted_files, w')
      end
  end.

(** One of the two [try] blocks of [delete_file]; a failing listing
    leaves [deleted_files] as it was. *)
Definition delete_area (bucket prefix label : string) (deleted_files : list string)
  : M S3.World (list string) :=
  λ w, match list_objects_v2 bucket prefix w with
       | (Ret contents, w') => delete_listed bucket label contents deleted_files w'
       | (Raise _, w') => (Ret deleted_files, w')
       end.

Definition delete_file (file_id : string) : M (Process S3.World) Response :=
  try_except
    (if String.eqb file_id "" then
       ret (create_response 400 {[ "error" := VStr "file_id is required" ]})
     else
       let deleted_files := [] in
       let* deleted_files := on_service (delete_area (UPLOAD_BUCKET cfg)
                               ("uploads/" +:+ file_id +:+ "/") "upload" deleted_files) in
       let* deleted_files := on_service (delete_area (PROCESSED_BUCKET cfg)
                               ("processed/uploads/" +:+ file_id +:+ "/") "processed"
                               deleted_files) in
       match deleted_files with
       | [] => ret (create_response 404 {[ "error" := VStr "File not found" ]})
       | _ =>
           ret (create_response 200
             {[ "message" := VStr ("File " +:+ file_id +:+ " deleted successfully");
                "deleted_files" := VList (VStr <$> deleted_files) ]})
       end)
    (λ e, ret (create_response 500 {[ "error" := VStr "Failed to delete file" ]})).

(** [json.loads] *)
Variable json_loads : string → outcome Value.

(** [path_parameters.get('fileId')], [None] read as the empty string,
    which the handlers refuse alike. *)
Definition path_file_id (e : Gateway.Event) : string :=
  default "" (default ∅ (Gateway.pathParameters e) !! "fileId").

Definition lambda_handler (event : Gateway.Event) : M (Process S3.World) Response :=
  try_except
    (let http_method := default "GET" (Gateway.httpMethod event) in
     let path := default "/" (Gateway.path event) in
     let* body := lift (Gateway.parse_body json_loads (Gateway.body event)) in
     if String.eqb path "/upload" && String.eqb http_method "POST" then
       get_upload_url cfg body
     else if String.eqb path "/files" && String.eqb http_method "GET" then
       list_files
     else if startswith "/files/" path && String.eqb http_method "GET" then
       get_file_info (path_file_id event)
     else if startswith "/files/" path && String.eqb http_method "DELETE" then
       delete_file (path_file_id event)
     else if startswith "/download/" path && String.eqb http_method "GET" then
       get_download_url (path_file_id event)
     else if startswith "/status/" path && String.eqb http_method "GET" then
       get_processing_status cfg (path_file_id event)
     else
       ret (create_response 404 {[ "error" := VStr "Endpoint not found" ]}))
    (λ e, ret (create_response 500 {[ "error" := VStr "Internal server error" ]})).

End WithConfig.
End FileRegistry.

(* ===================================================================== *)
(** * samples/02-simple-api-server/lambda/api_handler.py, the router      *)
(* ===================================================================== *)

Module ItemRouter.
Import Py Http ItemApi.
Local Open Scope py_scope.

Section WithEnvironment.
Variable display_of_iso : string → option string.
(** [json.loads], and [os.environ.get('ENVIRONMENT', 'dev')]. *)
Variable json_loads : string → outcome Value.
Variable environment : string.

Definition lambda_handler (event : Gateway.Event)
  : M (Process DynamoDB.World) Response :=
  try_except
    (let http_method := default "GET" (Gateway.httpMethod event) in
     let path := default "/" (Gateway.path event) in
     let path_parameters := default ∅ (Gateway.pathParameters event) in
     let query_parameters := default ∅ (Gateway.queryStringParameters event) in
     let* body := lift (Gateway.parse_body json_loads (Gateway.body event)) in
     let not_found :=
       ret (create_response 404 {[ "error" := VStr "Endpoint not found" ]}) in
     if String.eqb path "/health" then
       let* timestamp := datetime_now_isoformat in
       ret (create_response 200
         {[ "status" := VStr "healthy";
            "environment" := VStr environment;
            "timestamp" := VStr timestamp ]})
     else if String.eqb path "/items" then
       if String.eqb http_method "GET" then
         get_all_items display_of_iso query_parameters
       else if String.eqb http_method "POST" then
         create_item display_of_iso body
       else not_found
     else if startswith "/items/" path then
       let item_id := default "" (path_parameters !! "id") in
       if String.eqb item_id "" then
         ret (create_response 400 {[ "error" := VStr "Item ID is required" ]})
       else if String.eqb http_method "GET" then
         get_item display_of_iso item_id
       else if String.eqb http_method "PUT" then
         update_item display_of_iso item_id body
       else if String.eqb http_method "DELETE" then
         delete_item item_id
       else not_found
     else not_found)
    (λ e, ret (create_response 500
       {[ "error" := VStr "Internal server error";
          "details" := VStr (exc_str e) ]})).

End WithEnvironment.
End ItemRouter.
(* ===================================================================== *)
(** * Sample configurations, stores and requests                          *)
(* ===================================================================== *)

Module Sample.
Import Py S3 Env.

Definition cfg : Config :=
  {| UPLOAD_BUCKET := "upload-bucket";
     PROCESSED_BUCKET := "processed-bucket";
     MAX_FILE_SIZE_MB := 10;
     ALLOWED_FILE_TYPES := default_allowed;
     ENABLE_VIRUS_SCAN := false;
     ENABLE_IMAGE_RESIZE := true |}.

Definition store (key : string) (o : Object) (faults : list (option string)) : S3.World :=
  {| objects := {[ ("upload-bucket", key) := o ]};
     faults := faults;
     calls := [];
     signer := λ method params expires_in,
       "https://" +:+ PBucket params +:+ ".s3.amazonaws.com/" +:+ PKey params |}.

Definition pdf : Object := MkObject "%PDF-1.7" "application/pdf" ∅.

Definition created (key : string) : FileProcessor.Record_ :=
  FileProcessor.MkRecord "aws:s3" "ObjectCreated:Put" "upload-bucket" key.

(** A valid PDF in a store whose copies are refused: the copy of the
    pass-through step fails, then ([denied]) the quarantine copy too. *)
Definition report : string := "uploads/7f3a/report.pdf".
Definition denied : S3.World :=
  store report pdf [None; Some "Access Denied"; Some "Access Denied"].

(** The process around the HTTP handlers. *)
Definition runtime0 : Runtime :=
  {| uuid_stream := λ n, "uuid-" +:+ pretty n;
     uuid_drawn := 0;
     wall_clock := "2024-05-01T12:00:00.000000" |}.

Definition upload_process : Process S3.World :=
  MkProcess runtime0 (store report pdf []).

Definition exe_request : Value :=
  VDict {[ "filename" := VStr "x.exe"; "file_size" := VInt 1 ]}.
Definition png_request : Value :=
  VDict {[ "filename" := VStr "x.png"; "file_size" := VInt 2048 ]}.

(** The table of sample 02 with two items, and a service that takes
    every attribute name. *)
Definition display_of_iso (s : string) : option string :=
  if String.eqb s "" then None else Some ("on " +:+ s).

Definition item (id name at_ : string) : gmap string Value :=
  {[ "id" := VStr id;
     "name" := VStr name;
     "description" := VStr "";
     "category" := VStr "general";
     "created_at" := VStr at_;
     "updated_at" := VStr at_;
     "status" := VStr "active" ]}.

Definition table (faults : list (option string)) : DynamoDB.World :=
  {| DynamoDB.items :=
       {[ "42" := item "42" "first" "2024-04-01T09:00:00.000000";
          "43" := item "43" "second" "2024-04-02T09:00:00.000000" ]};
     DynamoDB.faults := faults;
     DynamoDB.calls := [];
     DynamoDB.accepts_name := λ _, true |}.

Definition item_process : Process DynamoDB.World := MkProcess runtime0 (table []).

Definition photo : string := "uploads/7f3a/photo.png".


Definition cfg_upper : Config :=
  {| UPLOAD_BUCKET := "upload-bucket";
     PROCESSED_BUCKET := "processed-bucket";
     MAX_FILE_SIZE_MB := 10;
     ALLOWED_FILE_TYPES := [".PNG"; ".Jpg"];
     ENABLE_VIRUS_SCAN := false;
     ENABLE_IMAGE_RESIZE := true |}.

Definition removed (key : string) : FileProcessor.Record_ :=
  FileProcessor.MkRecord "aws:s3" "ObjectRemoved:Delete" "upload-bucket" key.
Definition from_queue (key : string) : FileProcessor.Record_ :=
  FileProcessor.MkRecord "aws:sqs" "ObjectCreated:Put" "upload-bucket" key.

(** A store after processing, the report in both areas, and the process
    of the registry handlers around it. *)
Definition processed_report : string := "processed/uploads/7f3a/report.pdf".

Definition both_areas (faults : list (option string)) : S3.World :=
  {| objects := {[ ("upload-bucket", report) := pdf;
                   ("processed-bucket", processed_report) := pdf ]};
     faults := faults;
     calls := [];
     signer := λ method params expires_in,
       "https://" +:+ PBucket params +:+ ".s3.amazonaws.com/" +:+ PKey params |}.

Definition registry_process (faults : list (option string)) : Process S3.World :=
  MkProcess runtime0 (both_areas faults).

(** The time stamps of the listings. *)
Definition last_modified (bucket key : string) : string :=
  "2024-05-01T11:59:00+00:00".

(** A [json.loads] cut down to two texts, and requests of the gateway. *)
Definition json_loads (s : string) : outcome Value :=
  if String.eqb s "{}" then Ret (VDict ∅)
  else if String.eqb s "null" then Ret VNone
  else Raise (MkExc "JSONDecodeError" "Expecting value: line 1 column 1 (char 0)").

Definition request (method path : string) (parameters : option (gmap string string))
    (body : option string) : Gateway.Event :=
  Gateway.MkEvent (Some method) (Some path) parameters None body.

End Sample.
(* ===================================================================== *)
(** * Facts about the library functions                                   *)
(* ===================================================================== *)

Section StringLemmas.
Import Py.

Lemma app_String c s t : String c s +:+ t = String c (s +:+ t).
Proof. reflexivity. Qed.

Lemma length_app s1 s2 :
  String.length (s1 +:+ s2) = (String.length s1 + String.length s2)%nat.
Proof. induction s1 as [|c s1 IH]; [reflexivity|]. rewrite app_String. simpl. by rewrite IH. Qed.

Lemma get_app_shift s1 s2 j :
  String.get (String.length s1 + j) (s1 +:+ s2) = String.get j s2.
Proof. induction s1 as [|c s1 IH]; [reflexivity|]. rewrite app_String. simpl. exact IH. Qed.

Lemma str_drop_app_shift s1 s2 j :
  str_drop (String.length s1 + j) (s1 +:+ s2) = str_drop j s2.
Proof. induction s1 as [|c s1 IH]; [reflexivity|]. rewrite app_String. simpl. exact IH. Qed.

Lemma rfind_from_app c s1 s2 i acc :
  rfind_from c (s1 +:+ s2) i acc
  = rfind_from c s2 (i + Z.of_nat (String.length s1)) (rfind_from c s1 i acc).
Proof.
  revert i acc. induction s1 as [|x s1 IH]; intros i acc.
  - simpl. f_equal. lia.
  - rewrite app_String. simpl rfind_from. rewrite IH. f_equal.
    simpl String.length. lia.
Qed.

Lemma rfind_from_range c s i acc :
  rfind_from c s i acc = acc
  ∨ i ≤ rfind_from c s i acc < i + Z.of_nat (String.length s).
Proof.
  revert i acc. induction s as [|x s IH]; intros i acc; [by left|].
  simpl rfind_from. simpl String.length.
  destruct (IH (i + 1) (if Ascii.eqb x c then i else acc)) as [-> | ?].
  - destruct (Ascii.eqb x c); [right; lia | by left].
  - right. lia.
Qed.

Lemma rfind_range c s : -1 ≤ rfind c s < Z.of_nat (String.length s).
Proof. unfold rfind. destruct (rfind_from_range c s 0 (-1)); lia. Qed.

Lemma rfind_from_rfind c s i acc :
  rfind_from c s i acc = if rfind c s =? -1 then acc else i + rfind c s.
Proof.
  revert i acc. induction s as [|x s IH]; intros i acc; [reflexivity|].
  unfold rfind. simpl rfind_from. rewrite (IH (i + 1)), (IH (0 + 1)).
  pose proof (rfind_range c s).
  destruct (rfind c s =? -1) eqn:E.
  - destruct (Ascii.eqb x c); [|reflexivity].
    replace (0 =? -1) with false by reflexivity. lia.
  - apply Z.eqb_neq in E.
    destruct (0 + 1 + rfind c s =? -1) eqn:E'; [apply Z.eqb_eq in E'; lia | lia].
Qed.

Lemma skip_leading_dots_shift s1 s2 j fuel :
  0 ≤ j →
  skip_leading_dots (s1 +:+ s2) (Z.of_nat (String.length s1) + j) fuel
  = skip_leading_dots s2 j fuel.
Proof.
  revert j. induction fuel as [|fuel IH]; intros j Hj; [reflexivity|].
  simpl. replace (Z.to_nat (Z.of_nat (String.length s1) + j))
    with (String.length s1 + Z.to_nat j)%nat by lia.
  rewrite get_app_shift.
  replace (Z.of_nat (String.length s1) + j + 1)
    with (Z.of_nat (String.length s1) + (j + 1)) by lia.
  rewrite IH by lia. reflexivity.
Qed.

Lemma splitext_ext_under_directory pre f :
  (splitext (pre +:+ "/" +:+ f)).2 = (splitext f).2.
Proof.
  set (n := Z.of_nat (String.length (pre +:+ "/"))).
  assert (Hp : pre +:+ "/" +:+ f = (pre +:+ "/") +:+ f).
  { induction pre as [|c pre IH]; [reflexivity|]. rewrite !app_String. by f_equal. }
  assert (Hlen : n = Z.of_nat (String.length pre) + 1).
  { unfold n. rewrite length_app. simpl. lia. }
  assert (Hsep : rfind "/" (pre +:+ "/" +:+ f) = n + rfind "/" f).
  { rewrite Hp. unfold rfind at 1. rewrite rfind_from_app, rfind_from_app.
    simpl (rfind_from "/" "/" _ _). rewrite rfind_from_rfind.
    fold n. destruct (rfind "/" f =? -1) eqn:E; [apply Z.eqb_eq in E|]; lia. }
  assert (Hdot : rfind "." (pre +:+ "/" +:+ f)
                 = if rfind "." f =? -1 then rfind "." pre else n + rfind "." f).
  { rewrite Hp. unfold rfind at 1. rewrite rfind_from_app, rfind_from_app.
    simpl (rfind_from "." "/" _ _). rewrite rfind_from_rfind. fold n.
    destruct (rfind "." f =? -1); [reflexivity | lia]. }
  pose proof (rfind_range "/" f) as Bs. pose proof (rfind_range "." f) as Bd.
  pose proof (rfind_range "." pre) as Bp.
  unfold splitext at 1. rewrite Hsep, Hdot.
  unfold splitext. destruct (rfind "." f =? -1) eqn:E.
  - apply Z.eqb_eq in E. rewrite E.
    replace (rfind "." pre >? n + rfind "/" f) with false by lia.
    replace (-1 >? rfind "/" f) with false by lia. reflexivity.
  - apply Z.eqb_neq in E.
    replace (n + rfind "." f >? n + rfind "/" f)
      with (rfind "." f >? rfind "/" f) by lia.
    destruct (rfind "." f >? rfind "/" f) eqn:G; [|reflexivity].
    rewrite Hp.
    replace (n + rfind "/" f + 1) with (n + (rfind "/" f + 1)) by lia.
    replace (n + rfind "." f - (n + (rfind "/" f + 1)))
      with (rfind "." f - (rfind "/" f + 1)) by lia.
    unfold n at 1. rewrite skip_leading_dots_shift by lia.
    destruct (skip_leading_dots f _ _); [|reflexivity].
    simpl. replace (Z.to_nat (n + rfind "." f))
      with (String.length (pre +:+ "/") + Z.to_nat (rfind "." f))%nat by lia.
    apply str_drop_app_shift.
Qed.
End StringLemmas.

Section LibraryExamples.
Import Py.

Example splitext_nested : splitext "uploads/ab.c/x.tar.PNG" = ("uploads/ab.c/x.tar", ".PNG").
Proof. reflexivity. Qed.

Example splitext_dotfile : splitext "a/.bashrc" = ("a/.bashrc", "").
Proof. reflexivity. Qed.

Example splitext_leading_dots : splitext "a/..x.y" = ("a/..x", ".y").
Proof. reflexivity. Qed.

Example lower_mixed : lower ".PnG" = ".png".
Proof. reflexivity. Qed.

Example int_of_str_signed : int_of_str " -1_0 " = Some (-10).
Proof. reflexivity. Qed.

Example int_of_str_refused :
  int_of_str "abc" = None ∧ int_of_str "1__0" = None ∧ int_of_str "" = None
  ∧ int_of_str "2.5" = None.
Proof. repeat split; reflexivity. Qed.

Example unquote_plus_key : unquote_plus "a+b%2Fc%zz%41" = "a b/c%zzA".
Proof. reflexivity. Qed.

Example default_allow_list :
  Env.load {[ "UPLOAD_BUCKET" := "u"; "PROCESSED_BUCKET" := "p" ]}
  = Some {| Env.UPLOAD_BUCKET := "u"; Env.PROCESSED_BUCKET := "p";
            Env.MAX_FILE_SIZE_MB := 10;
            Env.ALLOWED_FILE_TYPES := Env.default_allowed;
            Env.ENABLE_VIRUS_SCAN := false;
            Env.ENABLE_IMAGE_RESIZE := true |}.
Proof. reflexivity. Qed.

End LibraryExamples.
(* ===================================================================== *)
(** * Facts about the S3 client                                           *)
(* ===================================================================== *)

Section S3Facts.
Import Py S3.

Lemma first_fault_S n c w :
  first_fault (S n) w
  = match next_fault w with
    | Some m => Some m
    | None => first_fault n (after_request c w)
    end.
Proof.
  unfold first_fault, next_fault. simpl.
  destruct (faults w) as [|[m|] fs]; simpl; try reflexivity.
  by rewrite take_nil.
Qed.


Lemma head_object_run b k w :
  head_object b k w
  = match next_fault w with
    | Some m => (Raise (client_error m), after_request (HeadObject b k) w)
    | None =>
        match objects w !! (b, k) with
        | Some o => (Ret (response_of o), after_request (HeadObject b k) w)
        | None => (Raise (client_error
            "An error occurred (404) when calling the HeadObject operation: Not Found"),
            after_request (HeadObject b k) w)
        end
    end.
Proof.
  unfold head_object, bind, request, read_objects.
  destruct (next_fault w); [reflexivity|]. simpl.
  destruct (objects w !! (b, k)); reflexivity.
Qed.

Lemma get_object_run b k w :
  get_object b k w
  = match next_fault w with
    | Some m => (Raise (client_error m), after_request (GetObject b k) w)
    | None =>
        match objects w !! (b, k) with
        | Some o => (Ret (response_of o), after_request (GetObject b k) w)
        | None => (Raise (client_error
            "An error occurred (NoSuchKey) when calling the GetObject operation: The specified key does not exist."),
            after_request (GetObject b k) w)
        end
    end.
Proof.
  unfold get_object, bind, request, read_objects.
  destruct (next_fault w); [reflexivity|]. simpl.
  destruct (objects w !! (b, k)); reflexivity.
Qed.

Lemma put_object_run b k body ct md w :
  put_object b k body ct md w
  = match next_fault w with
    | Some m => (Raise (client_error m), after_request (PutObject b k) w)
    | None =>
        (Ret tt, set_objects (<[(b, k) := MkObject body ct md]> (objects w))
                   (after_request (PutObject b k) w))
    end.
Proof.
  unfold put_object, bind, request, write_objects.
  destruct (next_fault w); reflexivity.
Qed.

Lemma copy_object_run sb sk b k md w :
  copy_object sb sk b k md w
  = match next_fault w with
    | Some m => (Raise (client_error m), after_request (CopyObject sb sk b k) w)
    | None =>
        match objects w !! (sb, sk) with
        | Some o =>
            (Ret tt, set_objects
               (<[(b, k) := copied o md]> (objects w))
               (after_request (CopyObject sb sk b k) w))
        | None => (Raise (client_error
            "An error occurred (NoSuchKey) when calling the CopyObject operation: The specified key does not exist."),
            after_request (CopyObject sb sk b k) w)
        end
    end.
Proof.
  unfold copy_object, bind, request, read_objects, write_objects.
  destruct (next_fault w); [reflexivity|]. simpl.
  destruct (objects w !! (sb, sk)); reflexivity.
Qed.

Lemma delete_object_run b k w :
  delete_object b k w
  = match next_fault w with
    | Some m => (Raise (client_error m), after_request (DeleteObject b k) w)
    | None =>
        (Ret tt, set_objects (delete (b, k) (objects w))
                   (after_request (DeleteObject b k) w))
    end.
Proof.
  unfold delete_object, bind, request, write_objects.
  destruct (next_fault w); reflexivity.
Qed.

End S3Facts.

Section KeyFacts.
Import Py.

Lemma prefixed_key_ne pre k : pre ≠ "" → pre +:+ k ≠ k.
Proof.
  intros Hpre E. apply (f_equal String.length) in E.
  rewrite length_app in E. destruct pre; [done|]. simpl in E. lia.
Qed.

(** A copy under a prefixed key followed by the delete of the source. *)
Lemma moved_lookup (os : gmap (string * string) S3.Object) b b' pre k x :
  pre ≠ "" →
  delete (b, k) (<[(b', pre +:+ k) := x]> os) !! (b', pre +:+ k) = Some x
  ∧ delete (b, k) (<[(b', pre +:+ k) := x]> os) !! (b, k) = None.
Proof.
  intros Hpre. split; [|apply lookup_delete_eq].
  rewrite lookup_delete_ne, lookup_insert_eq; [done|].
  intros [=_ E]. symmetry in E. by apply (prefixed_key_ne pre k).
Qed.

End KeyFacts.
(* ===================================================================== *)
(** * The file processor                                                  *)
(* ===================================================================== *)

Section FileProcessorFacts.
Import Py S3 Env FileProcessor.
Variable cfg : Config.

Lemma move_to_quarantine_run b k reason w o :
  objects w !! (b, k) = Some o →
  ∃ w',
    move_to_quarantine b k reason w
    = (match first_fault 2 w with
       | Some m => Raise (client_error m)
       | None => Ret tt
       end, w')
    ∧ match first_fault 2 w with
      | Some _ => objects w' !! (b, k) = Some o
      | None =>
          objects w'
          = delete (b, k)
              (<[(b, "quarantine/" +:+ k) := copied o (quarantine_metadata k reason)]>
                 (objects w))
          ∧ calls w' = calls w ++ [CopyObject b k b ("quarantine/" +:+ k); DeleteObject b k]
      end.
Proof.
  intros Ho.
  set (c1 := CopyObject b k b ("quarantine/" +:+ k)).
  set (c2 := DeleteObject b k).
  rewrite (first_fault_S 1 c1).
  unfold move_to_quarantine, try_except, bind. rewrite copy_object_run.
  fold c1. destruct (next_fault w) as [m|] eqn:F1.
  { eexists. split; [reflexivity|]. exact Ho. }
  rewrite Ho. rewrite delete_object_run. fold c2.
  rewrite (first_fault_S 0 c2).
  change (next_fault (set_objects ?os ?w0)) with (next_fault w0).
  destruct (next_fault (after_request c1 w)) as [m|] eqn:F2.
  { eexists. split; [reflexivity|]. simpl.
    rewrite lookup_insert_ne; [exact Ho|].
    intros [=E]. by apply (prefixed_key_ne "quarantine/" k). }
  eexists. split; [reflexivity|]. simpl. split; [reflexivity|].
  by rewrite <- app_assoc.
Qed.

Lemma move_to_processed_run b k w o :
  objects w !! (b, k) = Some o →
  ∃ w',
    move_to_processed cfg b k w
    = (match first_fault 2 w with
       | Some m => Raise (client_error m)
       | None => Ret tt
       end, w')
    ∧ match first_fault 2 w with
      | Some _ => objects w' !! (b, k) = Some o
      | None =>
          objects w'
          = delete (b, k)
              (<[(PROCESSED_BUCKET cfg, "processed/" +:+ k)
                   := copied o (processed_metadata k)]> (objects w))
          ∧ calls w' = calls w ++ [CopyObject b k (PROCESSED_BUCKET cfg) ("processed/" +:+ k);
                                   DeleteObject b k]
      end.
Proof.
  intros Ho.
  set (c1 := CopyObject b k (PROCESSED_BUCKET cfg) ("processed/" +:+ k)).
  set (c2 := DeleteObject b k).
  rewrite (first_fault_S 1 c1).
  unfold move_to_processed, try_except, bind. rewrite copy_object_run.
  fold c1. destruct (next_fault w) as [m|] eqn:F1.
  { eexists. split; [reflexivity|]. exact Ho. }
  rewrite Ho. rewrite delete_object_run. fold c2.
  rewrite (first_fault_S 0 c2).
  change (next_fault (set_objects ?os ?w0)) with (next_fault w0).
  destruct (next_fault (after_request c1 w)) as [m|] eqn:F2.
  { eexists. split; [reflexivity|]. simpl.
    rewrite lookup_insert_ne; [exact Ho|].
    intros [=_ E]. by apply (prefixed_key_ne "processed/" k). }
  eexists. split; [reflexivity|]. simpl. split; [reflexivity|].
  by rewrite <- app_assoc.
Qed.

Lemma process_image_run b k w o :
  objects w !! (b, k) = Some o →
  ∃ w',
    process_image cfg b k w
    = (match first_fault 3 w with
       | Some m => Raise (client_error m)
       | None => Ret tt
       end, w')
    ∧ match first_fault 3 w with
      | Some _ => objects w' !! (b, k) = Some o
      | None =>
          objects w'
          = delete (b, k)
              (<[(PROCESSED_BUCKET cfg, "processed/" +:+ k)
                   := MkObject (Body o) (ContentType o) (processed_metadata k)]>
                 (objects w))
          ∧ calls w' = calls w ++ [GetObject b k;
                                   PutObject (PROCESSED_BUCKET cfg) ("processed/" +:+ k);
                                   DeleteObject b k]
      end.
Proof.
  intros Ho.
  set (c1 := GetObject b k).
  set (c2 := PutObject (PROCESSED_BUCKET cfg) ("processed/" +:+ k)).
  set (c3 := DeleteObject b k).
  rewrite (first_fault_S 2 c1).
  unfold process_image, try_except, bind. rewrite get_object_run.
  fold c1. destruct (next_fault w) as [m|] eqn:F1.
  { eexists. split; [reflexivity|]. exact Ho. }
  rewrite Ho. rewrite put_object_run. fold c2.
  rewrite (first_fault_S 1 c2).
  destruct (next_fault (after_request c1 w)) as [m|] eqn:F2.
  { eexists. split; [reflexivity|]. exact Ho. }
  rewrite delete_object_run. fold c3.
  rewrite (first_fault_S 0 c3).
  change (next_fault (set_objects ?os ?w0)) with (next_fault w0).
  destruct (next_fault (after_request c2 (after_request c1 w))) as [m|] eqn:F3.
  { eexists. split; [reflexivity|]. simpl.
    rewrite lookup_insert_ne; [exact Ho|].
    intros [=_ E]. by apply (prefixed_key_ne "processed/" k). }
  eexists. split; [reflexivity|]. simpl. split; [reflexivity|].
  by rewrite <- !app_assoc.
Qed.

(** The guarded block of [process_uploaded_file] after a successful
    [head_object]: the validation quarantine or the processing step. *)
Lemma process_uploaded_file_run b k w o :
  objects w !! (b, k) = Some o →
  next_fault w = None →
  process_uploaded_file cfg b k w
  = match
      (if negb (validate_file cfg k (Z.of_nat (String.length (Body o))) (ContentType o))
       then move_to_quarantine b k "Validation failed"
       else if startswith "image/" (ContentType o) && ENABLE_IMAGE_RESIZE cfg
            then process_image cfg b k
            else move_to_processed cfg b k)
        (after_request (HeadObject b k) w)
    with
    | (Ret a, w2) => (Ret a, w2)
    | (Raise e, w2) =>
        move_to_quarantine b k ("Processing error: " +:+ exc_str e) w2
    end.
Proof.
  intros Ho F. unfold process_uploaded_file, try_except, bind.
  rewrite head_object_run, F, Ho. reflexivity.
Qed.

Lemma lambda_handler_single record w :
  eventSource record = "aws:s3" →
  lambda_handler cfg [record] w
  = match process_s3_event cfg record w with
    | (Ret _, w') =>
        (Ret {| statusCode := 200; body := "Successfully processed files" |}, w')
    | (Raise e, w') => (Raise e, w')
    end.
Proof.
  intros Hsrc. unfold lambda_handler, try_except, bind. simpl for_records.
  unfold bind. rewrite Hsrc. simpl (String.eqb _ _).
  destruct (process_s3_event cfg record w) as [[[]|e] w']; reflexivity.
Qed.

Lemma validate_file_false k size ct :
  validate_file cfg k size ct = false
  ↔ lower (splitext k).2 ∉ ALLOWED_FILE_TYPES cfg
    ∨ size > MAX_FILE_SIZE_MB cfg * 1024 * 1024.
Proof.
  unfold validate_file.
  destruct (size >? MAX_FILE_SIZE_MB cfg * 1024 * 1024) eqn:G.
  - split; [right; lia | done].
  - case_bool_decide as Hin; simpl.
    + split; [done | intros [? | ?]; [done | lia]].
    + split; [by left | done].
Qed.

End FileProcessorFacts.


Section FileProcessorSpec.
Import Py S3 Env FileProcessor.








End FileProcessorSpec.

(* ===================================================================== *)
(** * The upload API                                                      *)
(* ===================================================================== *)

Section UploadApiSpec.
Import Py S3 Env Http UploadApi.

Lemma upload_key_ext file_id filename :
  (splitext (upload_key file_id filename)).2 = (splitext filename).2.
Proof.
  unfold upload_key.
  replace ("uploads/" +:+ file_id +:+ "/" +:+ filename)
    with (("uploads/" +:+ file_id) +:+ "/" +:+ filename) by reflexivity.
  apply splitext_ext_under_directory.
Qed.

(** C3.  Under one configuration the issuer accepts a file name with a
    declared size exactly when the router accepts an object of that size
    stored at uploads/{file_id}/{filename}, whatever its content type. *)
Theorem issuer_and_router_validate_alike (cfg : Config)
    (file_id filename : string) (size : Z) (content_type : string) :
  validate_upload_request cfg (VStr filename) (VInt size)
  = Ret (FileProcessor.validate_file cfg (upload_key file_id filename) size content_type).
Proof.
  unfold validate_upload_request, FileProcessor.validate_file.
  rewrite upload_key_ext. unfold gt_int.
  destruct (size >? MAX_FILE_SIZE_MB cfg * 1024 * 1024);
    case_bool_decide; reflexivity.
Qed.

Lemma truthy_dict (d : gmap string Value) k v :
  d !! k = Some v → truthy (VDict d) = true.
Proof.
  intros Hk. unfold truthy. case_bool_decide as E; [|reflexivity].
  subst d. by rewrite lookup_empty in Hk.
Qed.





Lemma list_objects_v2_run b prefix w :
  list_objects_v2 b prefix w
  = match next_fault w with
    | Some m => (Raise (client_error m), after_request (ListObjectsV2 b prefix) w)
    | None =>
        (Ret (omap (λ '((b', k), o),
                 if bool_decide (b' = b) && startswith prefix k
                 then Some (k, o) else None) (map_to_list (objects w))),
         after_request (ListObjectsV2 b prefix) w)
    end.
Proof.
  unfold list_objects_v2, bind, request, read_objects.
  destruct (next_fault w); reflexivity.
Qed.

Lemma has_contents_stored_under b prefix w :
  has_contents (omap (λ '((b', k), o),
      if bool_decide (b' = b) && startswith prefix k
      then Some (k, o) else None) (map_to_list (objects w))) = true
  ↔ stored_under w b prefix.
Proof.
  set (f := λ '((b', k), o), _).
  split.
  - destruct (omap f _) as [|[k o] l] eqn:E; simpl; [intros H; discriminate H|]. intros _.
    assert (Hin : (k, o) ∈ omap f (map_to_list (objects w)))
      by (rewrite E; apply list_elem_of_here).
    apply list_elem_of_omap in Hin as ([[b' k'] o'] & Hin & Hf).
    apply elem_of_map_to_list in Hin. unfold f in Hf.
    case_bool_decide as Hb; [|done]. destruct (startswith prefix k') eqn:Hp; [|done].
    simpl in Hf. injection Hf as -> ->. subst b'. by exists k, o.
  - intros (k & o & Hk & Hp).
    assert (Hin : (k, o) ∈ omap f (map_to_list (objects w))).
    { apply list_elem_of_omap. exists ((b, k), o). split.
      - by apply elem_of_map_to_list.
      - unfold f. rewrite bool_decide_eq_true_2 by done. by rewrite Hp. }
    destruct (omap f _); [by apply elem_of_nil in Hin | done].
Qed.

Lemma quarantine_key_outside prefix k :
  startswith "quarantine/" k = true →
  startswith ("uploads/" +:+ prefix) k = false
  ∧ startswith ("processed/" +:+ prefix) k = false.
Proof.
  destruct k as [|c k]; [done|]. intros H. cbn [startswith] in H.
  apply andb_true_iff in H as [Hc _]. apply Ascii.eqb_eq in Hc. subst c.
  rewrite !app_String. split; reflexivity.
Qed.

(** C8.  For an identifier (a non-empty [file_id]) and two listing calls
    that go through, the response carries one status: completed when an
    object is stored under the processed prefix of the identifier,
    otherwise processing when one is stored under its incoming prefix,
    otherwise not_found; a store whose objects are all under quarantine/
    gives not_found. *)
Theorem processing_status_is_one_of_three (cfg : Config) (file_id : string)
    (w : Process S3.World) :
  let processed :=
    stored_under (service w) (PROCESSED_BUCKET cfg)
      ("processed/uploads/" +:+ file_id +:+ "/") in
  let incoming :=
    stored_under (service w) (UPLOAD_BUCKET cfg) ("uploads/" +:+ file_id +:+ "/") in
  file_id ≠ "" →
  first_fault 2 (service w) = None →
  ∃ status message w',
    get_processing_status cfg file_id w
    = (Ret (create_response 200
              {[ "file_id" := VStr file_id;
                 "status" := VStr status;
                 "message" := VStr message ]}), w')
    ∧ (status = "completed" ∨ status = "processing" ∨ status = "not_found")
    ∧ (processed → status = "completed")
    ∧ (¬ processed → incoming → status = "processing")
    ∧ (¬ processed → ¬ incoming → status = "not_found")
    ∧ ((∀ b k o, objects (service w) !! (b, k) = Some o →
                 startswith "quarantine/" k = true) →
       status = "not_found").
Proof.
  intros processed incoming Hid Hq.
  set (c1 := ListObjectsV2 (UPLOAD_BUCKET cfg) ("uploads/" +:+ file_id +:+ "/")).
  rewrite (first_fault_S 1 c1) in Hq.
  destruct (next_fault (service w)) eqn:F1; [done|].
  set (c2 := ListObjectsV2 (PROCESSED_BUCKET cfg)
               ("processed/uploads/" +:+ file_id +:+ "/")).
  rewrite (first_fault_S 0 c2) in Hq.
  destruct (next_fault (after_request c1 (service w))) eqn:F2; [done|].
  unfold get_processing_status, try_except, bind, on_service.
  rewrite (proj2 (String.eqb_neq _ _) Hid).
  rewrite list_objects_v2_run, F1. cbn [service runtime].
  rewrite list_objects_v2_run. fold c1. rewrite F2.
  change (objects (after_request c1 (service w))) with (objects (service w)).
  pose proof (has_contents_stored_under (PROCESSED_BUCKET cfg)
                ("processed/uploads/" +:+ file_id +:+ "/") (service w)) as Hp.
  pose proof (has_contents_stored_under (UPLOAD_BUCKET cfg)
                ("uploads/" +:+ file_id +:+ "/") (service w)) as Hu.
  fold processed in Hp. fold incoming in Hu.
  assert (Hquar : (∀ b k o, objects (service w) !! (b, k) = Some o →
                            startswith "quarantine/" k = true) →
                  ¬ processed ∧ ¬ incoming).
  { intros Hall. split; intros (k & o & Hk & Hpre);
      destruct (quarantine_key_outside (file_id +:+ "/") k (Hall _ _ _ Hk)) as [H1 H2].
    - change ("processed/uploads/" +:+ file_id +:+ "/")
        with ("processed/" +:+ "uploads/" +:+ file_id +:+ "/") in Hpre.
      destruct (quarantine_key_outside ("uploads/" +:+ file_id +:+ "/") k (Hall _ _ _ Hk))
        as [_ H3]. congruence.
    - congruence. }
  match type of Hp with ?x = true ↔ _ => destruct x eqn:EP end;
    [|match type of Hu with ?x = true ↔ _ => destruct x eqn:EU end].
  - apply proj1 in Hp. specialize (Hp eq_refl).
    eexists _, _, _. split; [reflexivity|]. repeat split; auto.
    + intros Hn. by destruct Hn.
    + intros Hn. by destruct Hn.
    + intros Hall. by destruct (proj1 (Hquar Hall)).
  - assert (Hnp : ¬ processed) by (intros H; by apply Hp in H).
    apply proj1 in Hu. specialize (Hu eq_refl).
    eexists _, _, _. split; [reflexivity|]. repeat split; auto.
    + intros H. by destruct Hnp.
    + intros _ Hn. by destruct Hn.
    + intros Hall. by destruct (proj2 (Hquar Hall)).
  - assert (Hnp : ¬ processed) by (intros H; by apply Hp in H).
    assert (Hnu : ¬ incoming) by (intros H; by apply Hu in H).
    eexists _, _, _. split; [reflexivity|]. repeat split; auto.
    + intros H. by destruct Hnp.
    + intros _ H. by destruct Hnu.
Qed.

Lemma processing_status_is_one_of_three_witness :
  ∃ message w',
    get_processing_status Sample.cfg "7f3a" Sample.upload_process
    = (Ret (create_response 200
              {[ "file_id" := VStr "7f3a";
                 "status" := VStr "processing";
                 "message" := VStr message ]}), w').
Proof.
  destruct (processing_status_is_one_of_three Sample.cfg "7f3a" Sample.upload_process)
    as (status & message & w' & Hrun & _ & _ & Hproc & _); [done | reflexivity |].
  rewrite Hproc in Hrun.
  - by exists message, w'.
  - intros (k & o & Hk & Hpre).
    change (objects (service Sample.upload_process))
      with ({[ ("upload-bucket", Sample.report) := Sample.pdf ]}
            : gmap (string * string) Object) in Hk.
    apply lookup_singleton_Some in Hk as [Hk _]. discriminate Hk.
  - exists Sample.report, Sample.pdf. split; reflexivity.
Defined.


End UploadApiSpec.

(* ===================================================================== *)
(** * The item API                                                        *)
(* ===================================================================== *)

Section ItemApiSpec.
Import Py Http ItemApi.

Variable display_of_iso : string → option string.



(** C10.  An update with an empty body is a BadRequest before the table
    is consulted, so also when the identifier does not exist. *)
Theorem update_empty_body_is_bad_request (item_id : string) (body : Value)
    (w : Process DynamoDB.World) :
  truthy body = false →
  update_item display_of_iso item_id body w
  = (Ret (create_response 400 {[ "error" := VStr "Request body is required" ]}), w).
Proof. intros Hempty. unfold update_item, try_except. by rewrite Hempty. Qed.

Lemma merge_created_lookup (fields item : gmap string Value) k :
  merge_created fields item !! k
  = if bool_decide (k ∈ ["id"; "created_at"; "updated_at"]) then item !! k
    else match fields !! k with
         | Some v => Some v
         | None => item !! k
         end.
Proof.
  unfold merge_created. revert k.
  apply (map_fold_weak_ind (λ r (m : gmap string Value), ∀ k,
    r !! k = if bool_decide (k ∈ ["id"; "created_at"; "updated_at"]) then item !! k
             else match m !! k with Some v => Some v | None => item !! k end)).
  - intros k. rewrite lookup_empty. by case_bool_decide.
  - intros i x m r Hi IH k. cbv beta.
    destruct (decide (i = k)) as [->|Hne].
    + specialize (IH k). destruct (bool_decide (k ∈ _)); [exact IH|].
      by rewrite !lookup_insert_eq.
    + rewrite (lookup_insert_ne m) by done. rewrite <- IH.
      destruct (bool_decide (i ∈ _)); [done|]. by rewrite lookup_insert_ne.
Qed.

Lemma format_item_lookup (item : gmap string Value) k :
  k ≠ "created_at_display" → k ≠ "updated_at_display" →
  format_item display_of_iso item !! k = item !! k.
Proof.
  intros H1 H2. unfold format_item.
  destruct (item !! "created_at") as [v|] eqn:E1.
  - destruct (<["created_at_display":=_]> item !! "updated_at");
      by rewrite ?lookup_insert_ne by done.
  - destruct (item !! "updated_at"); by rewrite ?lookup_insert_ne by done.
Qed.

Lemma put_item_run (item : gmap string Value) id w :
  item !! "id" = Some (VStr id) →
  DynamoDB.put_item item w
  = match DynamoDB.next_fault w with
    | Some m => (Raise (DynamoDB.client_error m),
                 DynamoDB.after_request (DynamoDB.PutItem id) w)
    | None => (Ret tt,
               DynamoDB.set_items (<[id := item]> (DynamoDB.items w))
                 (DynamoDB.after_request (DynamoDB.PutItem id) w))
    end.
Proof.
  intros Hid. unfold DynamoDB.put_item. rewrite Hid.
  unfold bind, DynamoDB.request, DynamoDB.write_items.
  destruct (DynamoDB.next_fault w); reflexivity.
Qed.

Lemma issued_fresh (r : Runtime) :
  Inj (=) (=) (uuid_stream r) → uuid_stream r (uuid_drawn r) ∉ issued r.
Proof.
  intros Hinj Hin. unfold issued in Hin.
  apply list_elem_of_fmap in Hin as (i & Heq & Hi).
  apply Hinj in Heq. subst i. apply elem_of_seq in Hi. lia.
Qed.

(** C6.  A create call with an empty body is a BadRequest.  A create
    call with a non-empty body, when the write goes through, returns an
    item whose created_at and updated_at are both the time of the call,
    whose identifier is the next draw of the generator (not one drawn
    before, for a generator that does not repeat; never the caller's),
    and whose name, description, category and status are the caller's or
    else "Untitled", "", "general" and "active". *)
Theorem create_item_stamps_fresh_item (d : gmap string Value)
    (w : Process DynamoDB.World) :
  let id := uuid_stream (runtime w) (uuid_drawn (runtime w)) in
  let now := wall_clock (runtime w) in
  (∀ body, truthy body = false →
     create_item display_of_iso body w
     = (Ret (create_response 400 {[ "error" := VStr "Request body is required" ]}), w))
  ∧ (d ≠ ∅ →
     DynamoDB.next_fault (service w) = None →
     Inj (=) (=) (uuid_stream (runtime w)) →
     ∃ returned w',
       create_item display_of_iso (VDict d) w
       = (Ret (create_response 201
            {[ "item" := VDict returned;
               "message" := VStr ("Item " +:+ id +:+ " created successfully") ]}), w')
       ∧ returned !! "created_at" = Some (VStr now)
       ∧ returned !! "updated_at" = returned !! "created_at"
       ∧ returned !! "id" = Some (VStr id)
       ∧ (id ∉ issued (runtime w))
       ∧ issued (runtime w') = issued (runtime w) ++ [id]
       ∧ returned !! "name" = Some (default (VStr "Untitled") (d !! "name"))
       ∧ returned !! "description" = Some (default (VStr "") (d !! "description"))
       ∧ returned !! "category" = Some (default (VStr "general") (d !! "category"))
       ∧ returned !! "status" = Some (default (VStr "active") (d !! "status"))
       ∧ ∃ stored, DynamoDB.items (service w') !! id = Some stored
                   ∧ returned = format_item display_of_iso stored).
Proof.
  intros id now. split.
  - intros body Hempty. unfold create_item, try_except. by rewrite Hempty.
  - intros Hne Hquiet Hinj.
    unfold create_item, try_except, bind, lift, dict_get, dict_items, uuid4,
      datetime_now_isoformat, on_service.
    assert (Ht : truthy (VDict d) = true).
    { unfold truthy. by rewrite bool_decide_eq_false_2. }
    rewrite Ht. cbn [negb runtime service wall_clock uuid_stream uuid_drawn].
    fold id now.
    match goal with
    | |- context [DynamoDB.put_item ?it] => set (item := it)
    end.
    assert (Hid : item !! "id" = Some (VStr id)).
    { unfold item. rewrite merge_created_lookup. reflexivity. }
    rewrite (put_item_run item id _ Hid), Hquiet.
    eexists _, _. split; [reflexivity|].
    rewrite !format_item_lookup by done.
    unfold item. rewrite !merge_created_lookup.
    cbn [runtime service DynamoDB.items DynamoDB.set_items].
    repeat split; try done.
    + by apply issued_fresh.
    + unfold issued. cbn [uuid_stream uuid_drawn]. by rewrite seq_S, fmap_app.
    + simpl. by destruct (d !! "name").
    + simpl. by destruct (d !! "description").
    + simpl. by destruct (d !! "category").
    + simpl. by destruct (d !! "status").
    + eexists. split; [apply lookup_insert_eq | reflexivity].
Qed.

(** What the loop of [update_item] leaves: one clause per caller field
    other than id and created_at, after the initial ones, each with its
    own placeholder bound to the caller's value. *)
Lemma build_update_spec (fields : gmap string Value)
    (clauses : list (string * string)) (values : gmap string Value) :
  ∃ rest,
    (build_update fields (clauses, values)).1 = clauses ++ rest
    ∧ NoDup rest.*1
    ∧ (∀ k, k ∈ rest.*1 ↔ is_Some (fields !! k) ∧ k ∉ ["id"; "created_at"])
    ∧ (∀ c, c ∈ rest → c.2 = ":" +:+ c.1)
    ∧ (∀ k, (build_update fields (clauses, values)).2 !! (":" +:+ k)
            = match fields !! k with
              | Some v => if bool_decide (k ∈ ["id"; "created_at"])
                          then values !! (":" +:+ k) else Some v
              | None => values !! (":" +:+ k)
              end).
Proof.
  unfold build_update.
  apply (map_fold_weak_ind (λ acc (m : gmap string Value), ∃ rest,
    acc.1 = clauses ++ rest
    ∧ NoDup rest.*1
    ∧ (∀ k, k ∈ rest.*1 ↔ is_Some (m !! k) ∧ k ∉ ["id"; "created_at"])
    ∧ (∀ c, c ∈ rest → c.2 = ":" +:+ c.1)
    ∧ (∀ k, acc.2 !! (":" +:+ k)
            = match m !! k with
              | Some v => if bool_decide (k ∈ ["id"; "created_at"])
                          then values !! (":" +:+ k) else Some v
              | None => values !! (":" +:+ k)
              end))).
  - exists []. rewrite app_nil_r. split; [done|]. split; [constructor|].
    split; [|split].
    + intros k. rewrite lookup_empty. split; [by intros ?%elem_of_nil|].
      by intros [[? [=]] _].
    + by intros c ?%elem_of_nil.
    + intros k. by rewrite lookup_empty.
  - intros i x m acc Hi (rest & Hcl & Hnd & Hin & Hph & Hval). cbv beta.
    case_bool_decide as Hex.
    + exists rest. split; [done|]. split; [done|]. split; [|split; [done|]].
      * intros k. rewrite Hin. destruct (decide (i = k)) as [->|Hne].
        -- rewrite Hi, lookup_insert_eq. split; [by intros [[? [=]] _]|].
           by intros [_ ?].
        -- by rewrite lookup_insert_ne.
      * intros k. rewrite Hval. destruct (decide (i = k)) as [->|Hne].
        -- rewrite Hi, lookup_insert_eq. by rewrite bool_decide_eq_true_2.
        -- by rewrite lookup_insert_ne.
    + exists (rest ++ [(i, ":" +:+ i)]). cbn [fst snd].
      split; [by rewrite Hcl, app_assoc|]. rewrite fmap_app. cbn [fmap list_fmap fst].
      split; [|split; [|split]].
      * apply NoDup_app. split; [done|]. split; [|apply NoDup_singleton].
        intros k Hk ->%list_elem_of_singleton. apply Hin in Hk as [[? Hk] _].
        by rewrite Hi in Hk.
      * intros k. rewrite elem_of_app, list_elem_of_singleton, Hin.
        destruct (decide (i = k)) as [->|Hne].
        -- rewrite lookup_insert_eq. split; [eauto|by right].
        -- rewrite lookup_insert_ne by done.
           split; [intros [?|?]; [done|by subst] | by left].
      * intros c [Hc | ->%list_elem_of_singleton]%elem_of_app; [by apply Hph|done].
      * intros k. destruct (decide (i = k)) as [->|Hne].
        -- rewrite !lookup_insert_eq. by rewrite bool_decide_eq_false_2.
        -- rewrite lookup_insert_ne by (intros [=]; done).
           rewrite lookup_insert_ne by done. apply Hval.
Qed.

Lemma get_item_run id w :
  DynamoDB.get_item id w
  = match DynamoDB.next_fault w with
    | Some m => (Raise (DynamoDB.client_error m),
                 DynamoDB.after_request (DynamoDB.GetItem id) w)
    | None => (Ret (DynamoDB.items w !! id),
               DynamoDB.after_request (DynamoDB.GetItem id) w)
    end.
Proof.
  unfold DynamoDB.get_item, bind, DynamoDB.request, DynamoDB.read_items.
  destruct (DynamoDB.next_fault w); reflexivity.
Qed.

(** The service refuses an update expression that assigns one attribute
    twice, and leaves the table as it is. *)
Lemma update_item_overlap id clauses values w :
  ¬ NoDup clauses.*1 →
  ∃ e w', DynamoDB.update_item id clauses values w = (Raise e, w')
          ∧ DynamoDB.items w' = DynamoDB.items w.
Proof.
  intros Hdup.
  unfold DynamoDB.update_item, bind, DynamoDB.request, DynamoDB.name_check.
  destruct (DynamoDB.next_fault w); [by eexists _, _|]. cbv beta iota.
  destruct (negb (forallb _ clauses)); [by eexists _, _|].
  destruct (bool_decide ("id" ∈ clauses.*1)); [by eexists _, _|].
  rewrite bool_decide_eq_false_2 by done. by eexists _, _.
Qed.

(** C7, where the code departs from it.  When the caller's body carries
    updated_at, the loop rebinds the placeholder of the refreshed
    timestamp to the caller's value and assigns updated_at a second time;
    the table refuses the expression, the item stays as it was and the
    response is an Internal error. *)
Theorem update_with_caller_updated_at (item_id : string) (d : gmap string Value)
    (v : Value) (old : gmap string Value) (w : Process DynamoDB.World) :
  d !! "updated_at" = Some v →
  DynamoDB.items (service w) !! item_id = Some old →
  (build_update d ([("updated_at", ":updated_at")],
                   {[ ":updated_at" := VStr (wall_clock (runtime w)) ]})).2
     !! ":updated_at" = Some v
  ∧ ∃ w',
      update_item display_of_iso item_id (VDict d) w
      = (Ret (create_response 500 {[ "error" := VStr "Failed to update item" ]}), w')
      ∧ DynamoDB.items (service w') = DynamoDB.items (service w).
Proof.
  intros Hupd Hold.
  destruct (build_update_spec d [("updated_at", ":updated_at")]
              {[ ":updated_at" := VStr (wall_clock (runtime w)) ]})
    as (rest & Hcl & _ & Hin & _ & Hval).
  split.
  { specialize (Hval "updated_at"). rewrite Hupd in Hval. exact Hval. }
  unfold update_item, try_except, bind, lift, dict_items, on_service,
    datetime_now_isoformat.
  rewrite (truthy_dict d _ _ Hupd). cbn [negb].
  rewrite get_item_run. destruct (DynamoDB.next_fault (service w)); [by eexists|].
  cbn [service runtime]. change (DynamoDB.items (DynamoDB.after_request _ ?s))
    with (DynamoDB.items s). rewrite Hold.
  destruct (build_update d _) as [clauses values] eqn:E. cbn [fst snd] in Hcl.
  cbn [service runtime].
  destruct (update_item_overlap item_id clauses values
              (DynamoDB.after_request (DynamoDB.GetItem item_id) (service w)))
    as (e & s' & -> & Hitems).
  { rewrite Hcl. cbn [fmap list_fmap app fst]. intros Hnd.
    apply NoDup_cons in Hnd as [Hnotin _]. apply Hnotin, Hin.
    split; [by rewrite Hupd|]. apply (bool_decide_unpack _). vm_compute. exact I. }
  eexists. split; [reflexivity|]. exact Hitems.
Qed.




End ItemApiSpec.

Section ItemApiWitnesses.
Import Py Http ItemApi.



Lemma update_empty_body_is_bad_request_witness :
  DynamoDB.items (service Sample.item_process) !! "no-such-id" = None
  ∧ update_item Sample.display_of_iso "no-such-id" (VDict ∅) Sample.item_process
    = (Ret (create_response 400 {[ "error" := VStr "Request body is required" ]}),
       Sample.item_process).
Proof.
  split; [reflexivity|].
  apply (update_empty_body_is_bad_request Sample.display_of_iso "no-such-id" (VDict ∅)
           Sample.item_process).
  reflexivity.
Defined.

Lemma sample_uuid_stream_inj : Inj (=) (=) (uuid_stream Sample.runtime0).
Proof.
  intros x y H. cbn [uuid_stream Sample.runtime0] in H.
  apply (inj (String.app "uuid-")) in H. by apply (inj pretty) in H.
Qed.

Lemma create_item_stamps_fresh_item_witness :
  create_item Sample.display_of_iso (VDict ∅) Sample.item_process
  = (Ret (create_response 400 {[ "error" := VStr "Request body is required" ]}),
     Sample.item_process)
  ∧ ∃ returned w',
      create_item Sample.display_of_iso
        (VDict {[ "name" := VStr "third"; "id" := VStr "42" ]}) Sample.item_process
      = (Ret (create_response 201
           {[ "item" := VDict returned;
              "message" := VStr "Item uuid-0 created successfully" ]}), w')
      ∧ returned !! "updated_at" = returned !! "created_at"
      ∧ returned !! "id" = Some (VStr "uuid-0")
      ∧ returned !! "name" = Some (VStr "third")
      ∧ returned !! "status" = Some (VStr "active").
Proof.
  pose proof (create_item_stamps_fresh_item Sample.display_of_iso
                {[ "name" := VStr "third"; "id" := VStr "42" ]} Sample.item_process)
    as [Hempty Hitem].
  split; [by apply Hempty|].
  destruct Hitem as (returned & w' & Hrun & _ & Hat & Hid & _ & _ & Hname & _ & _ & Hstatus & _).
  - intros E. apply (f_equal (lookup "name")) in E. discriminate E.
  - reflexivity.
  - exact sample_uuid_stream_inj.
  - exists returned, w'. auto.
Defined.

Lemma update_with_caller_updated_at_witness :
  ∃ w',
    update_item Sample.display_of_iso "42"
      (VDict {[ "updated_at" := VStr "1999-01-01T00:00:00" ]}) Sample.item_process
    = (Ret (create_response 500 {[ "error" := VStr "Failed to update item" ]}), w')
    ∧ DynamoDB.items (service w') = DynamoDB.items (service Sample.item_process).
Proof.
  apply (update_with_caller_updated_at Sample.display_of_iso "42"
           {[ "updated_at" := VStr "1999-01-01T00:00:00" ]}
           (VStr "1999-01-01T00:00:00")
           (Sample.item "42" "first" "2024-04-01T09:00:00.000000")
           Sample.item_process); reflexivity.
Defined.

End ItemApiWitnesses.

(* ===================================================================== *)
(** * More on the file processor                                          *)
(* ===================================================================== *)

Section FileProcessorMore.
Import Py S3 Env FileProcessor.

Lemma validate_file_true (cfg : Config) k size ct :
  lower (splitext k).2 ∈ ALLOWED_FILE_TYPES cfg →
  size ≤ MAX_FILE_SIZE_MB cfg * 1024 * 1024 →
  validate_file cfg k size ct = true.
Proof.
  intros Hext Hsize. destruct (validate_file cfg k size ct) eqn:E; [done|].
  apply validate_file_false in E as [? | ?]; [done | lia].
Qed.



(** X3.  Records that are not from S3, and S3 records other than object
    creations (removals among them), are passed over: a batch of such
    records issues no S3 call, changes nothing and succeeds. *)
Theorem other_records_are_passed_over (cfg : Config) (records : list Record_)
    (w : S3.World) :
  Forall (λ r, eventSource r ≠ "aws:s3"
               ∨ startswith "ObjectCreated" (eventName r) = false) records →
  lambda_handler cfg records w
  = (Ret {| statusCode := 200; body := "Successfully processed files" |}, w).
Proof.
  intros Hall. unfold lambda_handler, try_except, bind.
  assert (Hfor : for_records cfg records w = (Ret tt, w)).
  { induction Hall as [|r rs Hr _ IH]; [reflexivity|].
    cbn [for_records]. unfold bind.
    destruct (String.eqb_spec (eventSource r) "aws:s3") as [Hs|Hs].
    - destruct Hr as [Hr|Hr]; [done|]. unfold process_s3_event. rewrite Hr.
      destruct (startswith "ObjectRemoved" (eventName r)); exact IH.
    - exact IH. }
  by rewrite Hfor.
Qed.

(** X4.  The handler over two batches put end to end: the second batch runs
    on what the first leaves, and not at all when the first raises. *)
Theorem lambda_handler_app (cfg : Config) (records1 records2 : list Record_)
    (w : S3.World) :
  lambda_handler cfg (records1 ++ records2) w
  = match lambda_handler cfg records1 w with
    | (Ret _, w1) => lambda_handler cfg records2 w1
    | (Raise e, w1) => (Raise e, w1)
    end.
Proof.
  unfold lambda_handler, try_except, bind.
  assert (Hfor : ∀ w, for_records cfg (records1 ++ records2) w
    = match for_records cfg records1 w with
      | (Ret _, w1) => for_records cfg records2 w1
      | (Raise e, w1) => (Raise e, w1)
      end).
  { induction records1 as [|r rs IH]; intros w0; [reflexivity|].
    cbn [app for_records]. unfold bind.
    destruct (String.eqb (eventSource r) "aws:s3"); [|apply IH].
    destruct (process_s3_event cfg r w0) as [[[]|e] w1]; [apply IH | reflexivity]. }
  rewrite Hfor. destruct (for_records cfg records1 w) as [[[]|e] w1]; reflexivity.
Qed.

(** X5.  An event for a key that is no longer there (a repeated delivery, or
    an object removed in between): [head_object] fails, so does the copy
    of the quarantine that follows, and the handler raises with the
    store as it was. *)
Theorem event_for_absent_key_raises (cfg : Config) (record : Record_) (w : S3.World) :
  let b := s3_bucket_name record in
  let k := unquote_plus (s3_object_key record) in
  eventSource record = "aws:s3" →
  startswith "ObjectCreated" (eventName record) = true →
  objects w !! (b, k) = None →
  ∃ e w',
    lambda_handler cfg [record] w = (Raise e, w')
    ∧ objects w' = objects w
    ∧ calls w' = calls w ++ [HeadObject b k; CopyObject b k b ("quarantine/" +:+ k)].
Proof.
  intros b k Hsrc Hev Hnone.
  rewrite (lambda_handler_single cfg record w Hsrc).
  unfold process_s3_event. rewrite Hev. fold b k.
  unfold process_uploaded_file, try_except, bind.
  rewrite head_object_run, Hnone.
  assert (Hq : ∀ reason,
    ∃ e w', move_to_quarantine b k reason (after_request (HeadObject b k) w)
            = (Raise e, w')
            ∧ objects w' = objects w
            ∧ calls w' = calls w ++ [HeadObject b k;
                                     CopyObject b k b ("quarantine/" +:+ k)]).
  { intros reason.
    unfold move_to_quarantine, try_except, bind. rewrite copy_object_run.
    change (objects (after_request _ w)) with (objects w). rewrite Hnone.
    destruct (next_fault _); eexists _, _; (split; [reflexivity|]);
      cbn [objects calls after_request]; by rewrite <- app_assoc. }
  destruct (next_fault w) as [m|];
    match goal with
    | |- context [move_to_quarantine b k ?reason _] =>
        destruct (Hq reason) as (e & w' & -> & H1 & H2); by exists e, w'
    end.
Qed.

(** X6.  Whatever calls the service fails, the bytes of an uploaded object
    are not lost by the processing of its write event: afterwards an
    object with these bytes is at the original key, at processed/{key}
    of the processed bucket, or at quarantine/{key}. *)
Theorem uploaded_bytes_are_never_lost (cfg : Config) (record : Record_)
    (w : S3.World) (o : Object) :
  let b := s3_bucket_name record in
  let k := unquote_plus (s3_object_key record) in
  let w' := (process_s3_event cfg record w).2 in
  startswith "ObjectCreated" (eventName record) = true →
  objects w !! (b, k) = Some o →
  ∃ o', Body o' = Body o
        ∧ (objects w' !! (b, k) = Some o'
           ∨ objects w' !! (PROCESSED_BUCKET cfg, "processed/" +:+ k) = Some o'
           ∨ objects w' !! (b, "quarantine/" +:+ k) = Some o').
Proof.
  intros b k w' Hev Ho. subst w'.
  assert (Hquar : ∀ reason w0, objects w0 !! (b, k) = Some o →
    ∃ o', Body o' = Body o
          ∧ (objects (move_to_quarantine b k reason w0).2 !! (b, k) = Some o'
             ∨ objects (move_to_quarantine b k reason w0).2
                 !! (PROCESSED_BUCKET cfg, "processed/" +:+ k) = Some o'
             ∨ objects (move_to_quarantine b k reason w0).2
                 !! (b, "quarantine/" +:+ k) = Some o')).
  { intros reason w0 Ho0.
    destruct (move_to_quarantine_run b k reason w0 o Ho0) as (w1 & -> & Hpost).
    destruct (first_fault 2 w0); cbn [snd].
    - exists o. auto.
    - destruct Hpost as [-> _]. eexists. split; [|right; right; by apply moved_lookup].
      reflexivity. }
  unfold process_s3_event. rewrite Hev. fold b k.
  destruct (next_fault w) as [m|] eqn:F.
  { unfold process_uploaded_file, try_except, bind. rewrite head_object_run, F.
    by apply Hquar. }
  rewrite (process_uploaded_file_run cfg b k w o Ho F).
  set (w1 := after_request (HeadObject b k) w).
  assert (Ho1 : objects w1 !! (b, k) = Some o) by exact Ho.
  destruct (negb (validate_file cfg k _ (ContentType o))).
  - destruct (move_to_quarantine_run b k "Validation failed" w1 o Ho1)
      as (w2 & -> & Hpost).
    destruct (first_fault 2 w1); [by apply Hquar|]. cbn [snd].
    destruct Hpost as [-> _]. eexists. split; [|right; right; by apply moved_lookup].
    reflexivity.
  - destruct (startswith "image/" (ContentType o) && ENABLE_IMAGE_RESIZE cfg).
    + destruct (process_image_run cfg b k w1 o Ho1) as (w2 & -> & Hpost).
      destruct (first_fault 3 w1); [by apply Hquar|]. cbn [snd].
      destruct Hpost as [-> _]. eexists. split; [|right; left; by apply moved_lookup].
      reflexivity.
    + destruct (move_to_processed_run cfg b k w1 o Ho1) as (w2 & -> & Hpost).
      destruct (first_fault 2 w1); [by apply Hquar|]. cbn [snd].
      destruct Hpost as [-> _]. eexists. split; [|right; left; by apply moved_lookup].
      reflexivity.
Qed.

Lemma lower_ascii_idemp c : lower_ascii (lower_ascii c) = lower_ascii c.
Proof. destruct c as [[] [] [] [] [] [] [] []]; reflexivity. Qed.

Lemma lower_idemp s : lower (lower s) = lower s.
Proof. induction s as [|c s IH]; [done|]. simpl. by rewrite lower_ascii_idemp, IH. Qed.

(** X7.  The extension is lower-cased before it is looked up and the
    allow-list is not: with an allow-list whose entries all hold an
    upper-case letter, the router accepts no object and the issuer no
    request. *)
Theorem upper_case_allow_list_accepts_nothing (cfg : Config)
    (name : string) (size : Z) (content_type : string) :
  (∀ entry, entry ∈ ALLOWED_FILE_TYPES cfg → lower entry ≠ entry) →
  validate_file cfg name size content_type = false
  ∧ UploadApi.validate_upload_request cfg (VStr name) (VInt size) = Ret false.
Proof.
  intros Hupper.
  assert (Hout : lower (splitext name).2 ∉ ALLOWED_FILE_TYPES cfg).
  { intros Hin. apply (Hupper _ Hin). apply lower_idemp. }
  split.
  - apply validate_file_false. by left.
  - unfold UploadApi.validate_upload_request. by rewrite bool_decide_eq_false_2.
Qed.



Lemma other_records_are_passed_over_witness :
  lambda_handler Sample.cfg [Sample.removed Sample.report; Sample.from_queue Sample.report]
    (Sample.store Sample.report Sample.pdf [])
  = (Ret {| statusCode := 200; body := "Successfully processed files" |},
     Sample.store Sample.report Sample.pdf []).
Proof.
  apply other_records_are_passed_over.
  constructor; [by right|]. constructor; [by left|]. constructor.
Defined.

Lemma event_for_absent_key_raises_witness :
  ∃ e w',
    lambda_handler Sample.cfg [Sample.created Sample.photo]
      (Sample.store Sample.report Sample.pdf []) = (Raise e, w')
    ∧ objects w' = objects (Sample.store Sample.report Sample.pdf []).
Proof.
  destruct (event_for_absent_key_raises Sample.cfg (Sample.created Sample.photo)
              (Sample.store Sample.report Sample.pdf []))
    as (e & w' & Hrun & Hobj & _); [reflexivity | reflexivity | reflexivity |].
  by exists e, w'.
Defined.

Lemma uploaded_bytes_are_never_lost_witness :
  ∃ o', Body o' = "%PDF-1.7"
        ∧ (objects (process_s3_event Sample.cfg (Sample.created Sample.report)
                      Sample.denied).2 !! ("upload-bucket", Sample.report) = Some o'
           ∨ objects (process_s3_event Sample.cfg (Sample.created Sample.report)
                        Sample.denied).2
               !! ("processed-bucket", "processed/" +:+ Sample.report) = Some o'
           ∨ objects (process_s3_event Sample.cfg (Sample.created Sample.report)
                        Sample.denied).2
               !! ("upload-bucket", "quarantine/" +:+ Sample.report) = Some o').
Proof.
  exact (uploaded_bytes_are_never_lost Sample.cfg (Sample.created Sample.report)
           Sample.denied Sample.pdf eq_refl eq_refl).
Defined.

Lemma upper_case_allow_list_accepts_nothing_witness :
  validate_file Sample.cfg_upper "x.PNG" 10 "image/png" = false
  ∧ UploadApi.validate_upload_request Sample.cfg_upper (VStr "x.PNG") (VInt 10)
    = Ret false.
Proof.
  apply upper_case_allow_list_accepts_nothing.
  intros entry Hin. cbn [ALLOWED_FILE_TYPES Sample.cfg_upper] in Hin.
  apply elem_of_cons in Hin as [-> | Hin]; [discriminate|].
  apply elem_of_cons in Hin as [-> | Hin]; [discriminate|].
  by apply elem_of_nil in Hin.
Defined.

End FileProcessorMore.

(* ===================================================================== *)
(** * More on the upload API                                              *)
(* ===================================================================== *)

Section UploadApiMore.
Import Py S3 Env Http UploadApi.

(** What [get_upload_url] answers, branch by branch: a 400 or a 500 on
    the process as it was, a 500 after the identifier was drawn, or the
    200 for a request that passed validation. *)
Lemma get_upload_url_cases (cfg : Config) (body : Value) (w : Process S3.World) :
  let file_id := uuid_stream (runtime w) (uuid_drawn (runtime w)) in
  ∃ resp w', get_upload_url cfg body w = (Ret resp, w')
    ∧ ((statusCode resp = 400 ∧ w' = w)
       ∨ (statusCode resp = 500
          ∧ (w' = w ∨ uuid_drawn (runtime w') = S (uuid_drawn (runtime w))))
       ∨ (statusCode resp = 200
          ∧ ∃ d filename,
              body = VDict d
              ∧ d !! "filename" = Some (VStr filename)
              ∧ validate_upload_request cfg (VStr filename)
                  (default (VInt 0) (d !! "file_size")) = Ret true
              ∧ Http.body resp !! "file_id" = Some (VStr file_id)
              ∧ Http.body resp !! "file_key" = Some (VStr (upload_key file_id filename))
              ∧ Http.body resp !! "expires_in" = Some (VInt 900)
              ∧ uuid_drawn (runtime w') = S (uuid_drawn (runtime w))
              ∧ calls (service w')
                = calls (service w)
                  ++ [GeneratePresignedUrl "put_object" (UPLOAD_BUCKET cfg)
                        (upload_key file_id filename)]
              ∧ objects (service w') = objects (service w))).
Proof.
  intros file_id. unfold get_upload_url, try_except, bind, lift.
  assert (H400 : ∀ (x : gmap string Value) P Q,
    ∃ resp w', (Ret (create_response 400 x), w) = (Ret resp, w')
      ∧ ((statusCode resp = 400 ∧ w' = w) ∨ P resp w' ∨ Q resp w')).
  { intros. eexists _, _. split; [reflexivity|]. by left. }
  assert (H500 : ∀ (x : gmap string Value) w0 Q,
    w0 = w ∨ uuid_drawn (runtime w0) = S (uuid_drawn (runtime w)) →
    ∃ resp w', (Ret (create_response 500 x), w0) = (Ret resp, w')
      ∧ ((statusCode resp = 400 ∧ w' = w)
         ∨ (statusCode resp = 500
            ∧ (w' = w ∨ uuid_drawn (runtime w') = S (uuid_drawn (runtime w))))
         ∨ Q resp w')).
  { intros. eexists _, _. split; [reflexivity|]. right; left. by split. }
  destruct (truthy body) eqn:Ht; cbn [negb]; [|apply H400].
  destruct body as [|?|?|?|?|d]; cbn [dict_get]; try (apply H500; by left).
  set (filename := default VNone (d !! "filename")).
  destruct (truthy filename) eqn:Hf; cbn [negb]; [|apply H400].
  destruct (validate_upload_request cfg filename _) as [[]|e] eqn:Hv; cbn [negb];
    [|apply H400|apply H500; by left].
  destruct filename as [|?|?|fn|?|?] eqn:Hfn; try discriminate Hv.
  assert (Hd : d !! "filename" = Some (VStr fn)).
  { unfold filename in Hfn. destruct (d !! "filename"); [by simplify_eq/=|done]. }
  unfold uuid4, datetime_now_isoformat. cbn [runtime service].
  destruct (presign_content_type _) as [ct|e] eqn:Hct; [|apply H500; by right].
  unfold on_service, generate_presigned_url, bind, request. cbn [runtime service].
  destruct (next_fault (service w)); [apply H500; by right|].
  eexists _, _. split; [reflexivity|]. right; right. split; [done|].
  exists d, fn. cbn [as_str]. repeat split; done.
Qed.

Lemma str_app_assoc a b c : (a +:+ b) +:+ c = a +:+ (b +:+ c).
Proof. induction a as [|x a IH]; [done|]. rewrite !app_String. by rewrite IH. Qed.

Lemma startswith_app pre s : startswith pre (pre +:+ s) = true.
Proof.
  induction pre as [|c pre IH]; [reflexivity|].
  rewrite app_String. cbn [startswith]. by rewrite IH, Ascii.eqb_refl.
Qed.

(** X8.  The issuer hands out no key that the router would reject for its
    name: after a 200 the issued key is uploads/{file_id}/{filename},
    and an object stored under it is accepted by [validate_file] at
    every size within the maximum, whatever its content type. *)
Theorem issued_key_passes_the_router (cfg : Config) (body : Value)
    (w w' : Process S3.World) (resp : Response) :
  get_upload_url cfg body w = (Ret resp, w') →
  statusCode resp = 200 →
  ∃ file_key,
    Http.body resp !! "file_key" = Some (VStr file_key)
    ∧ startswith ("uploads/" +:+ uuid_stream (runtime w) (uuid_drawn (runtime w)) +:+ "/")
        file_key = true
    ∧ ∀ size content_type,
        size ≤ MAX_FILE_SIZE_MB cfg * 1024 * 1024 →
        FileProcessor.validate_file cfg file_key size content_type = true.
Proof.
  intros Hrun Hok.
  destruct (get_upload_url_cases cfg body w) as (resp0 & w0 & Hrun0 & Hcases).
  rewrite Hrun in Hrun0. injection Hrun0 as <- <-.
  destruct Hcases as [[H _] | [[H _] | [_ H]]]; [congruence | congruence |].
  destruct H as (d & fn & -> & Hd & Hv & _ & Hkey & _).
  eexists. split; [exact Hkey|]. split.
  - unfold upload_key. rewrite <- !str_app_assoc. apply startswith_app.
  - intros size ct Hsize. apply validate_file_true; [|done].
    rewrite upload_key_ext. unfold validate_upload_request in Hv.
    by case_bool_decide.
Qed.

(** X9.  A request that is answered 400 draws no identifier and reaches no
    service: the process is left as it was. *)
Theorem rejected_upload_request_changes_nothing (cfg : Config) (body : Value)
    (w w' : Process S3.World) (resp : Response) :
  get_upload_url cfg body w = (Ret resp, w') →
  statusCode resp = 400 →
  w' = w.
Proof.
  intros Hrun Hbad.
  destruct (get_upload_url_cases cfg body w) as (resp0 & w0 & Hrun0 & Hcases).
  rewrite Hrun in Hrun0. injection Hrun0 as <- <-.
  destruct Hcases as [[_ H] | [[H _] | [H _]]]; [done | congruence | congruence].
Qed.

Lemma issued_key_passes_the_router_witness :
  ∃ resp w' file_key,
    get_upload_url Sample.cfg Sample.png_request Sample.upload_process = (Ret resp, w')
    ∧ statusCode resp = 200
    ∧ Http.body resp !! "file_key" = Some (VStr file_key)
    ∧ FileProcessor.validate_file Sample.cfg file_key 2048 "image/png" = true.
Proof.
  assert (∃ resp w',
    get_upload_url Sample.cfg Sample.png_request Sample.upload_process = (Ret resp, w')
    ∧ statusCode resp = 200) as (resp & w' & Hrun & Hok).
  { eexists _, _. split; reflexivity. }
  destruct (issued_key_passes_the_router Sample.cfg Sample.png_request
              Sample.upload_process w' resp Hrun Hok) as (file_key & Hkey & _ & Hvalid).
  exists resp, w', file_key. repeat split; [done..|]. apply Hvalid.
  vm_compute. discriminate.
Defined.

Lemma rejected_upload_request_changes_nothing_witness :
  ∃ resp w',
    get_upload_url Sample.cfg Sample.exe_request Sample.upload_process = (Ret resp, w')
    ∧ statusCode resp = 400
    ∧ w' = Sample.upload_process.
Proof.
  assert (∃ resp w',
    get_upload_url Sample.cfg Sample.exe_request Sample.upload_process = (Ret resp, w')
    ∧ statusCode resp = 400) as (resp & w' & Hrun & Hbad).
  { eexists _, _. split; reflexivity. }
  exists resp, w'. repeat split; [done..|].
  exact (rejected_upload_request_changes_nothing Sample.cfg Sample.exe_request
           Sample.upload_process w' resp Hrun Hbad).
Defined.

End UploadApiMore.

(* ===================================================================== *)
(** * The file registry                                                   *)
(* ===================================================================== *)

Section FileRegistryFacts.
Import Py S3 Env Http UploadApi FileRegistry.

Lemma list_objects_v2_listing b prefix w :
  list_objects_v2 b prefix w
  = match next_fault w with
    | Some m => (Raise (client_error m), after_request (ListObjectsV2 b prefix) w)
    | None => (Ret (listing (objects w) b prefix),
               after_request (ListObjectsV2 b prefix) w)
    end.
Proof. exact (list_objects_v2_run b prefix w). Qed.

Lemma elem_of_listing os b prefix k o :
  (k, o) ∈ listing os b prefix
  ↔ os !! (b, k) = Some o ∧ startswith prefix k = true.
Proof.
  unfold listing. rewrite list_elem_of_omap. split.
  - intros ([[b' k'] o'] & Hin & Hf). apply elem_of_map_to_list in Hin.
    case_bool_decide as Hb; [|done]. destruct (startswith prefix k') eqn:Hp; [|done].
    simpl in Hf. injection Hf as -> ->. by subst b'.
  - intros [Hk Hp]. exists ((b, k), o). split; [by apply elem_of_map_to_list|].
    rewrite bool_decide_eq_true_2 by done. by rewrite Hp.
Qed.

Lemma listing_nil os b prefix :
  listing os b prefix = [] ↔ ¬ ∃ k o, os !! (b, k) = Some o ∧ startswith prefix k = true.
Proof.
  split.
  - intros E (k & o & H). apply elem_of_listing in H. rewrite E in H.
    by apply elem_of_nil in H.
  - intros Hno. destruct (listing os b prefix) as [|[k o] l] eqn:E; [done|].
    destruct Hno. exists k, o. apply elem_of_listing. rewrite E. apply list_elem_of_here.
Qed.

Lemma NoDup_listing_keys os b prefix : NoDup (listing os b prefix).*1.
Proof.
  unfold listing.
  assert (H : ∀ l : list (string * string * Object), NoDup l.*1 →
    NoDup (omap (λ '((b', k), o),
             if bool_decide (b' = b) && startswith prefix k
             then Some (k, o) else None) l).*1).
  { induction l as [|[[b' k] o] l IH]; [constructor|].
    cbn [fmap list_fmap omap list_omap fst]. intros [Hk Hnd]%NoDup_cons.
    destruct (bool_decide (b' = b) && startswith prefix k) eqn:E; [|by apply IH].
    cbn [fmap list_fmap fst]. apply NoDup_cons. split; [|by apply IH].
    intros Hin. apply Hk. apply list_elem_of_fmap in Hin as ([k' o'] & Hkk & Hin).
    apply list_elem_of_omap in Hin as ([[b'' k''] o''] & Hin & Hf).
    destruct (bool_decide (b'' = b) && startswith prefix k'') eqn:E'; [|done].
    apply andb_true_iff in E as [Hb _], E' as [Hb' _].
    apply bool_decide_eq_true in Hb, Hb'. simplify_eq/=.
    apply list_elem_of_fmap. by eexists (_, _). }
  apply H, NoDup_fst_map_to_list.
Qed.

(** The loop of [delete_file] over a listing: it never raises, deletes
    the keys of a front part of the listing and records them, and gets
    through the whole listing when the service fails no call. *)
Lemma delete_listed_spec bucket label (l : list (string * Object)) acc w :
  ∃ n w',
    delete_listed bucket label l acc w
    = (Ret (acc ++ ((λ obj, label +:+ ":" +:+ obj.1) <$> take n l)), w')
    ∧ (∀ key, objects w' !! key
              = if bool_decide (key.1 = bucket ∧ key.2 ∈ (take n l).*1) then None
                else objects w !! key)
    ∧ (faults w = [] → n = length l ∧ faults w' = []).
Proof.
  revert acc w. induction l as [|[k o] l IH]; intros acc w.
  - exists 0%nat, w. cbn [delete_listed take fmap list_fmap]. rewrite app_nil_r.
    split; [reflexivity|]. split; [|done].
    intros key. rewrite bool_decide_eq_false_2; [done|]. intros [_ H].
    by apply elem_of_nil in H.
  - cbn [delete_listed fst]. rewrite delete_object_run.
    destruct (next_fault w) as [m|] eqn:F.
    + exists 0%nat, (after_request (DeleteObject bucket k) w).
      cbn [take fmap list_fmap]. rewrite app_nil_r. split; [reflexivity|].
      split.
      * intros key. rewrite bool_decide_eq_false_2; [done|]. intros [_ H].
        by apply elem_of_nil in H.
      * intros Hf. unfold next_fault in F. by rewrite Hf in F.
    + destruct (IH (acc ++ [label +:+ ":" +:+ k])
                  (set_objects (delete (bucket, k) (objects w))
                     (after_request (DeleteObject bucket k) w)))
        as (n & w' & -> & Hobj & Hq).
      exists (S n), w'. cbn [take fmap list_fmap fst].
      split; [by rewrite <- app_assoc|]. split.
      * intros [b' k']. rewrite Hobj. cbn [fst snd objects set_objects].
        destruct (decide (b' = bucket ∧ k' = k)) as [[-> ->]|Hne].
        -- rewrite (bool_decide_eq_true_2 (bucket = bucket ∧ k ∈ k :: _));
             [|split; [done|apply list_elem_of_here]].
           rewrite lookup_delete_eq. by case_bool_decide.
        -- rewrite lookup_delete_ne by (intros [= -> ->]; by destruct Hne).
           erewrite bool_decide_ext; [reflexivity|].
           rewrite elem_of_cons.
           split; [intros [? ?]; split; auto|].
           intros [Hb [Hk|Hk]]; [destruct Hne; by split | by split].
      * intros Hf. destruct Hq as [-> Hf']; [by cbn; rewrite Hf|]. done.
Qed.

Lemma delete_area_spec bucket prefix label acc w :
  ∃ (l : list (string * Object)) w',
    delete_area bucket prefix label acc w
    = (Ret (acc ++ ((λ obj, label +:+ ":" +:+ obj.1) <$> l)), w')
    ∧ l `prefix_of` listing (objects w) bucket prefix
    ∧ (∀ key, objects w' !! key
              = if bool_decide (key.1 = bucket ∧ key.2 ∈ l.*1) then None
                else objects w !! key)
    ∧ (faults w = [] → l = listing (objects w) bucket prefix ∧ faults w' = [])
    ∧ (is_Some (next_fault w) → l = [] ∧ faults w' = tail (faults w)).
Proof.
  unfold delete_area. rewrite list_objects_v2_listing.
  destruct (next_fault w) as [m|] eqn:F.
  - exists [], (after_request (ListObjectsV2 bucket prefix) w).
    cbn [fmap list_fmap]. rewrite app_nil_r. split; [reflexivity|].
    split; [apply prefix_nil|]. split; [|split; [|done]].
    + intros key. rewrite bool_decide_eq_false_2; [done|]. intros [_ H].
      by apply elem_of_nil in H.
    + intros Hf. unfold next_fault in F. by rewrite Hf in F.
  - destruct (delete_listed_spec bucket label (listing (objects w) bucket prefix) acc
                (after_request (ListObjectsV2 bucket prefix) w))
      as (n & w' & -> & Hobj & Hq).
    exists (take n (listing (objects w) bucket prefix)), w'.
    split; [reflexivity|]. split; [apply prefix_take|]. split; [exact Hobj|].
    split; [|by intros [? [=]]].
    intros Hf. destruct Hq as [-> Hf']; [by cbn; rewrite Hf|].
    by rewrite firstn_all.
Qed.


(** [delete_file] for a non-empty identifier: it never raises and never
    answers 500; it deletes a front part of each of the two listings,
    and the whole of both when the service fails no call. *)
Lemma delete_file_shape (cfg : Config) file_id (w : Process S3.World) :
  let pU := "uploads/" +:+ file_id +:+ "/" in
  let pP := "processed/uploads/" +:+ file_id +:+ "/" in
  file_id ≠ "" →
  ∃ (l1 l2 : list (string * Object)) s1 s2,
    delete_file cfg file_id w
    = (Ret (match ((λ obj, "upload" +:+ ":" +:+ obj.1) <$> l1)
                  ++ ((λ obj, "processed" +:+ ":" +:+ obj.1) <$> l2) with
            | [] => create_response 404 {[ "error" := VStr "File not found" ]}
            | dl =>
                create_response 200
                  {[ "message" := VStr ("File " +:+ file_id +:+ " deleted successfully");
                     "deleted_files" := VList (VStr <$> dl) ]}
            end), MkProcess (runtime w) s2)
    ∧ l1 `prefix_of` listing (objects (service w)) (UPLOAD_BUCKET cfg) pU
    ∧ l2 `prefix_of` listing (objects s1) (PROCESSED_BUCKET cfg) pP
    ∧ (∀ key, objects s1 !! key
              = if bool_decide (key.1 = UPLOAD_BUCKET cfg ∧ key.2 ∈ l1.*1) then None
                else objects (service w) !! key)
    ∧ (∀ key, objects s2 !! key
              = if bool_decide (key.1 = PROCESSED_BUCKET cfg ∧ key.2 ∈ l2.*1) then None
                else objects s1 !! key)
    ∧ (faults (service w) = [] →
       l1 = listing (objects (service w)) (UPLOAD_BUCKET cfg) pU
       ∧ l2 = listing (objects s1) (PROCESSED_BUCKET cfg) pP
       ∧ faults s2 = [])
    ∧ (∀ m1 m2 fs, faults (service w) = Some m1 :: Some m2 :: fs →
       l1 = [] ∧ l2 = []).
Proof.
  intros pU pP Hid.
  destruct (delete_area_spec (UPLOAD_BUCKET cfg) pU "upload" [] (service w))
    as (l1 & s1 & Hrun1 & Hpre1 & Hobj1 & Hq1 & Hf1).
  destruct (delete_area_spec (PROCESSED_BUCKET cfg) pP "processed"
              ((λ obj, "upload" +:+ ":" +:+ obj.1) <$> l1) s1)
    as (l2 & s2 & Hrun2 & Hpre2 & Hobj2 & Hq2 & Hf2).
  exists l1, l2, s1, s2. split.
  - unfold delete_file, try_except, bind, on_service.
    rewrite (proj2 (String.eqb_neq _ _) Hid). fold pU pP.
    rewrite Hrun1. cbn [service runtime app]. rewrite Hrun2.
    match goal with
    | |- context [match ?x with [] => ret _ | _ :: _ => _ end] => by destruct x
    end.
  - repeat split; try done.
    + by apply Hq1.
    + apply Hq2. by apply Hq1.
    + apply Hq2. by apply Hq1.
    + apply Hf1. unfold next_fault. rewrite H. by eexists.
    + destruct Hf1 as [_ Hs1]; [unfold next_fault; rewrite H; by eexists|].
      apply Hf2. unfold next_fault. rewrite Hs1, H. by eexists.
Qed.


End FileRegistryFacts.

Section FileRegistrySpec.
Import Py S3 Env Http UploadApi FileRegistry.

(** X10.  A download URL is issued only for an object of the processed area:
    with nothing under processed/uploads/{file_id}/ the answer is 404,
    also while the upload is still in the incoming area; otherwise the
    URL is signed for a key found under that prefix, for 3600 seconds.
    The store is not written. *)
Theorem download_url_only_once_processed (cfg : Config) (file_id : string)
    (w : Process S3.World) :
  let prefix := "processed/uploads/" +:+ file_id +:+ "/" in
  file_id ≠ "" →
  first_fault 2 (service w) = None →
  (¬ stored_under (service w) (PROCESSED_BUCKET cfg) prefix →
     ∃ w',
       get_download_url cfg file_id w
       = (Ret (create_response 404
                 {[ "error" := VStr "File not found or not processed yet" ]}), w')
       ∧ objects (service w') = objects (service w))
  ∧ (stored_under (service w) (PROCESSED_BUCKET cfg) prefix →
     ∃ key o w',
       get_download_url cfg file_id w
       = (Ret (create_response 200
            {[ "download_url" := VStr (signer (service w) "get_object"
                  {| PBucket := PROCESSED_BUCKET cfg; PKey := key;
                     PContentType := None; PMetadata := ∅ |} 3600);
               "file_id" := VStr file_id;
               "expires_in" := VInt 3600 ]}), w')
       ∧ objects (service w) !! (PROCESSED_BUCKET cfg, key) = Some o
       ∧ startswith prefix key = true
       ∧ objects (service w') = objects (service w)).
Proof.
  intros prefix Hid Hq.
  set (c1 := ListObjectsV2 (PROCESSED_BUCKET cfg) prefix).
  rewrite (first_fault_S 1 c1) in Hq.
  destruct (next_fault (service w)) eqn:F1; [done|].
  assert (Hrun : get_download_url cfg file_id w
    = match listing (objects (service w)) (PROCESSED_BUCKET cfg) prefix with
      | [] => (Ret (create_response 404
                 {[ "error" := VStr "File not found or not processed yet" ]}),
               MkProcess (runtime w) (after_request c1 (service w)))
      | obj :: _ =>
          match next_fault (after_request c1 (service w)) with
          | Some m => (Ret (create_response 500
                         {[ "error" := VStr "Failed to generate download URL" ]}),
                       MkProcess (runtime w)
                         (after_request (GeneratePresignedUrl "get_object"
                            (PROCESSED_BUCKET cfg) obj.1) (after_request c1 (service w))))
          | None =>
              (Ret (create_response 200
                 {[ "download_url" := VStr (signer (service w) "get_object"
                       {| PBucket := PROCESSED_BUCKET cfg; PKey := obj.1;
                          PContentType := None; PMetadata := ∅ |} 3600);
                    "file_id" := VStr file_id;
                    "expires_in" := VInt 3600 ]}),
               MkProcess (runtime w)
                 (after_request (GeneratePresignedUrl "get_object"
                    (PROCESSED_BUCKET cfg) obj.1) (after_request c1 (service w))))
          end
      end).
  { unfold get_download_url, try_except, bind, on_service.
    rewrite (proj2 (String.eqb_neq _ _) Hid).
    rewrite list_objects_v2_listing, F1. fold prefix c1.
    destruct (listing _ _ _) as [|obj l]; [reflexivity|].
    unfold generate_presigned_url, bind, request. cbn [service runtime].
    destruct (next_fault (after_request c1 (service w))); reflexivity. }
  rewrite Hrun. split.
  - intros Hno. rewrite (proj2 (listing_nil _ _ _) Hno). by eexists.
  - intros (k & o & Hk & Hp).
    destruct (listing _ _ _) as [|[key o'] l] eqn:E.
    { assert (Hin : (k, o) ∈ listing (objects (service w)) (PROCESSED_BUCKET cfg) prefix)
        by by apply elem_of_listing.
      rewrite E in Hin. by apply elem_of_nil in Hin. }
    assert (Hin : (key, o') ∈ listing (objects (service w)) (PROCESSED_BUCKET cfg) prefix)
      by (rewrite E; apply list_elem_of_here).
    apply elem_of_listing in Hin as [Hkey Hpre].
    rewrite (first_fault_S 0 (GeneratePresignedUrl "get_object"
               (PROCESSED_BUCKET cfg) key)) in Hq.
    destruct (next_fault (after_request c1 (service w))); [done|].
    eexists key, o', _. by repeat split.
Qed.




(** X13.  [delete_file] swallows the failures of the store: for a non-empty
    identifier it answers 200 or 404, never 500, and when both listings
    fail it answers 404 "File not found" with every object still in
    place. *)
Theorem delete_file_reports_failures_as_not_found (cfg : Config) (file_id : string)
    (w : Process S3.World) :
  file_id ≠ "" →
  ∃ resp w',
    delete_file cfg file_id w = (Ret resp, w')
    ∧ (statusCode resp = 200 ∨ statusCode resp = 404)
    ∧ (∀ m1 m2 fs, faults (service w) = Some m1 :: Some m2 :: fs →
       resp = create_response 404 {[ "error" := VStr "File not found" ]}
       ∧ objects (service w') = objects (service w)).
Proof.
  intros Hid.
  destruct (delete_file_shape cfg file_id w Hid)
    as (l1 & l2 & s1 & s2 & Hrun & _ & _ & Hobj1 & Hobj2 & _ & Hout).
  eexists _, _. split; [exact Hrun|]. split.
  - destruct l1 as [|? ?]; [destruct l2 as [|? ?]|];
      cbn [fmap list_fmap app]; [by right | by left | by left].
  - intros m1 m2 fs Hfs. destruct (Hout m1 m2 fs Hfs) as [-> ->].
    split; [reflexivity|]. cbn [service]. apply map_eq. intros key.
    rewrite Hobj2, Hobj1.
    rewrite !bool_decide_eq_false_2; [done|..]; by intros [_ ?%elem_of_nil].
Qed.

Lemma download_url_only_once_processed_witness :
  (∃ w',
     get_download_url Sample.cfg "7f3a" Sample.upload_process
     = (Ret (create_response 404
               {[ "error" := VStr "File not found or not processed yet" ]}), w')
     ∧ objects (service w') = objects (service Sample.upload_process))
  ∧ (∃ key o w',
       get_download_url Sample.cfg "7f3a" (Sample.registry_process [])
       = (Ret (create_response 200
            {[ "download_url" := VStr (signer (Sample.both_areas []) "get_object"
                  {| PBucket := "processed-bucket"; PKey := key;
                     PContentType := None; PMetadata := ∅ |} 3600);
               "file_id" := VStr "7f3a";
               "expires_in" := VInt 3600 ]}), w')
       ∧ objects (Sample.both_areas []) !! ("processed-bucket", key) = Some o
       ∧ startswith "processed/uploads/7f3a/" key = true
       ∧ objects (service w') = objects (Sample.both_areas [])).
Proof.
  split.
  - destruct (download_url_only_once_processed Sample.cfg "7f3a" Sample.upload_process)
      as [Hnone _]; [done | reflexivity |].
    apply Hnone. intros (k & o & Hk & Hpre).
    change (objects (service Sample.upload_process))
      with ({[ ("upload-bucket", Sample.report) := Sample.pdf ]}
            : gmap (string * string) Object) in Hk.
    apply lookup_singleton_Some in Hk as [Hk _]. discriminate Hk.
  - destruct (download_url_only_once_processed Sample.cfg "7f3a"
                (Sample.registry_process []))
      as [_ Hsome]; [done | reflexivity |].
    apply Hsome. exists Sample.processed_report, Sample.pdf. split; reflexivity.
Defined.



Lemma delete_file_reports_failures_as_not_found_witness :
  ∃ w',
    delete_file Sample.cfg "7f3a"
      (Sample.registry_process [Some "Service Unavailable"; Some "Service Unavailable"])
    = (Ret (create_response 404 {[ "error" := VStr "File not found" ]}), w')
    ∧ objects (service w') = objects (Sample.both_areas []).
Proof.
  destruct (delete_file_reports_failures_as_not_found Sample.cfg "7f3a"
              (Sample.registry_process
                 [Some "Service Unavailable"; Some "Service Unavailable"]))
    as (resp & w' & Hrun & _ & Hout); [done|].
  destruct (Hout "Service Unavailable" "Service Unavailable" [] eq_refl) as [-> Hobj].
  exists w'. split; [exact Hrun | exact Hobj].
Defined.

End FileRegistrySpec.

(* ===================================================================== *)
(** * The file registry: listing and information                          *)
(* ===================================================================== *)

Section SplitFacts.
Import Py UploadApi.

Lemma app_empty_r s : s +:+ "" = s.
Proof. induction s as [|c s IH]; [done|]. by rewrite app_String, IH. Qed.

Lemma rev_app_acc s acc : String.rev_app s acc = String.rev s +:+ acc.
Proof.
  unfold String.rev. revert acc. induction s as [|c s IH]; intros acc; [done|].
  cbn [String.rev_app]. rewrite (IH (String c acc)), (IH (String c "")).
  by rewrite str_app_assoc.
Qed.

Lemma split_go_cons sep s cur : ∃ p rest, split_go sep s cur = p :: rest.
Proof.
  revert cur. induction s as [|c s IH]; intros cur; cbn [split_go]; [by eexists _, _|].
  destruct (Ascii.eqb c sep); [by eexists _, _ | apply IH].
Qed.

Lemma split_go_component sep a t cur :
  sep ∉ list_ascii_of_string a →
  split_go sep (a +:+ String sep t) cur
  = (String.rev cur +:+ a) :: split_go sep t "".
Proof.
  revert cur. induction a as [|c a IH]; intros cur Hfree.
  - change ("" +:+ String sep t) with (String sep t). cbn [split_go].
    by rewrite Ascii.eqb_refl, app_empty_r.
  - rewrite app_String. cbn [split_go].
    cbn [list_ascii_of_string] in Hfree. apply not_elem_of_cons in Hfree as [Hc Hfree].
    rewrite (proj2 (Ascii.eqb_neq c sep)) by done.
    rewrite IH by done. unfold String.rev at 1. cbn [String.rev_app].
    by rewrite rev_app_acc, str_app_assoc.
Qed.

Lemma startswith_inv pre s : startswith pre s = true → ∃ t, s = pre +:+ t.
Proof.
  revert s. induction pre as [|c pre IH]; intros s; [by exists s|].
  destruct s as [|x s]; [done|]. cbn [startswith].
  intros [Hc Hs]%andb_true_iff. apply Ascii.eqb_eq in Hc as ->.
  destruct (IH s Hs) as [t ->]. by exists t.
Qed.

Lemma split_uploads k :
  startswith "uploads/" k = true →
  ∃ file_id rest, split "/" k = "uploads" :: file_id :: rest.
Proof.
  intros [t ->]%startswith_inv.
  destruct (split_go_cons "/" t "") as (p & rest & Ht).
  exists p, rest. unfold split.
  change ("uploads/" +:+ t) with ("uploads" +:+ String "/" t).
  rewrite split_go_component; [by rewrite Ht|].
  vm_compute. intros H. by repeat (apply elem_of_cons in H as [H|H]; [done|]);
    apply elem_of_nil in H.
Qed.

Lemma split_upload_key file_id filename :
  "/"%char ∉ list_ascii_of_string file_id →
  split "/" (upload_key file_id filename)
  = "uploads" :: file_id :: split "/" filename.
Proof.
  intros Hfree. unfold split, upload_key.
  change ("uploads/" +:+ file_id +:+ "/" +:+ filename)
    with ("uploads" +:+ String "/" (file_id +:+ String "/" filename)).
  rewrite split_go_component.
  - by rewrite split_go_component.
  - vm_compute. intros H. by repeat (apply elem_of_cons in H as [H|H]; [done|]);
      apply elem_of_nil in H.
Qed.

Lemma split_processed_key file_id filename :
  "/"%char ∉ list_ascii_of_string file_id →
  split "/" ("processed/" +:+ upload_key file_id filename)
  = "processed" :: "uploads" :: file_id :: split "/" filename.
Proof.
  intros Hfree. unfold split at 1.
  change ("processed/" +:+ upload_key file_id filename)
    with ("processed" +:+ String "/" (upload_key file_id filename)).
  rewrite split_go_component.
  - f_equal. by apply split_upload_key.
  - vm_compute. intros H. by repeat (apply elem_of_cons in H as [H|H]; [done|]);
      apply elem_of_nil in H.
Qed.

End SplitFacts.

Section ListFiles.
Import Py S3 Env Http UploadApi FileRegistry.
Variable cfg : Config.
Variable last_modified : string → string → string.

Lemma append_uploaded_spec (l : list (string * Object)) (acc : list Value) :
  Forall (λ obj, startswith "uploads/" obj.1 = true) l →
  ∃ entries,
    append_uploaded cfg last_modified l acc = Ret (acc ++ entries)
    ∧ Forall2 (λ obj e, ∃ file_id, split "/" obj.1 !! 1%nat = Some file_id
                                   ∧ e = (VDict {[ "file_id" := VStr file_id;
          "key" := VStr obj.1;
          "size" := VInt (size_of obj.2);
          "last_modified" := VStr (last_modified (UPLOAD_BUCKET cfg) obj.1);
          "status" := VStr "uploaded";
          "bucket" := VStr "upload" ]})) l entries.
Proof.
  revert acc. induction l as [|obj l IH]; intros acc Hl.
  - exists []. by rewrite app_nil_r.
  - apply Forall_cons in Hl as [Hobj Hl].
    destruct (split_uploads _ Hobj) as (file_id & rest & Hsplit).
    destruct (IH (acc ++ [(VDict {[ "file_id" := VStr file_id;
          "key" := VStr obj.1;
          "size" := VInt (size_of obj.2);
          "last_modified" := VStr (last_modified (UPLOAD_BUCKET cfg) obj.1);
          "status" := VStr "uploaded";
          "bucket" := VStr "upload" ]})]) Hl) as (entries & Hrun & Hall).
    exists ((VDict {[ "file_id" := VStr file_id;
          "key" := VStr obj.1;
          "size" := VInt (size_of obj.2);
          "last_modified" := VStr (last_modified (UPLOAD_BUCKET cfg) obj.1);
          "status" := VStr "uploaded";
          "bucket" := VStr "upload" ]}) :: entries). split.
    + cbn [append_uploaded]. unfold uploaded_entry, split_index.
      rewrite Hsplit. cbn [lookup list_lookup].
      rewrite Hrun. by rewrite <- app_assoc.
    + constructor; [|done]. exists file_id. by rewrite Hsplit.
Qed.

Lemma list_files_run (w : Process S3.World) :
  first_fault 2 (service w) = None →
  ∃ ups w',
    let files :=
      ups ++ (processed_entry cfg last_modified
                <$> listing (objects (service w)) (PROCESSED_BUCKET cfg) "processed/") in
    list_files cfg last_modified w
    = (Ret (create_response 200
         {[ "files" := VList files;
            "count" := VInt (Z.of_nat (length files)) ]}), w')
    ∧ Forall2 (λ obj e, ∃ file_id, split "/" obj.1 !! 1%nat = Some file_id
                                   ∧ e = (VDict {[ "file_id" := VStr file_id;
          "key" := VStr obj.1;
          "size" := VInt (size_of obj.2);
          "last_modified" := VStr (last_modified (UPLOAD_BUCKET cfg) obj.1);
          "status" := VStr "uploaded";
          "bucket" := VStr "upload" ]}))
        (listing (objects (service w)) (UPLOAD_BUCKET cfg) "uploads/") ups
    ∧ objects (service w') = objects (service w).
Proof.
  intros Hq.
  set (c1 := ListObjectsV2 (UPLOAD_BUCKET cfg) "uploads/").
  rewrite (first_fault_S 1 c1) in Hq.
  destruct (next_fault (service w)) eqn:F1; [done|].
  set (c2 := ListObjectsV2 (PROCESSED_BUCKET cfg) "processed/").
  rewrite (first_fault_S 0 c2) in Hq.
  destruct (next_fault (after_request c1 (service w))) eqn:F2; [done|].
  destruct (append_uploaded_spec
              (listing (objects (service w)) (UPLOAD_BUCKET cfg) "uploads/") [])
    as (ups & Hrun & Hall).
  { apply Forall_forall. intros [k o] Hin. by apply elem_of_listing in Hin as [_ ?]. }
  exists ups. eexists. cbv zeta. split; [|split; [exact Hall|]].
  - unfold list_files, try_except, bind, on_service, paginate, lift.
    rewrite list_objects_v2_listing, F1. cbn [service runtime].
    rewrite Hrun. rewrite list_objects_v2_listing. fold c1. rewrite F2.
    reflexivity.
  - reflexivity.
Qed.

Lemma uploaded_entries_NoDup (l : list (string * Object)) (ups : list Value) :
  Forall2 (λ obj e, ∃ file_id, split "/" obj.1 !! 1%nat = Some file_id
                               ∧ e = (VDict {[ "file_id" := VStr file_id;
          "key" := VStr obj.1;
          "size" := VInt (size_of obj.2);
          "last_modified" := VStr (last_modified (UPLOAD_BUCKET cfg) obj.1);
          "status" := VStr "uploaded";
          "bucket" := VStr "upload" ]})) l ups →
  NoDup l.*1 → NoDup ups.
Proof.
  induction 1 as [|obj e l ups (file_id & _ & ->) Hall IH]; [constructor|].
  cbn [fmap list_fmap]. intros [Hk Hnd]%NoDup_cons. apply NoDup_cons. split; [|by apply IH].
  intros Hin. apply Hk.
  apply list_elem_of_lookup in Hin as [i Hi].
  destruct (Forall2_lookup_r _ _ _ _ _ Hall Hi) as (obj' & Hobj' & file_id' & _ & Heq).
  apply list_elem_of_fmap. exists obj'. split; [|by eapply list_elem_of_lookup_2].
  apply (f_equal (λ v, match v with VDict d => d !! "key" | _ => None end)) in Heq.
  vm_compute in Heq. by injection Heq.
Qed.

(** X14.  [list_files] with a store that fails neither listing: the answer is
    200 and names, once each, every object under uploads/ of the upload
    bucket, with the second component of its key as identifier, and
    every object under processed/ of the processed bucket, with the
    third component of its key or "unknown"; no key makes it fail, and
    the store is not written. *)
Theorem list_files_lists_both_areas (w : Process S3.World) :
  first_fault 2 (service w) = None →
  ∃ files w',
    list_files cfg last_modified w
    = (Ret (create_response 200
         {[ "files" := VList files;
            "count" := VInt (Z.of_nat (length files)) ]}), w')
    ∧ objects (service w') = objects (service w)
    ∧ NoDup files
    ∧ ∀ e, e ∈ files
        ↔ (∃ k o file_id,
             objects (service w) !! (UPLOAD_BUCKET cfg, k) = Some o
             ∧ startswith "uploads/" k = true
             ∧ split "/" k !! 1%nat = Some file_id
             ∧ e = (VDict {[ "file_id" := VStr file_id;
          "key" := VStr k;
          "size" := VInt (size_of o);
          "last_modified" := VStr (last_modified (UPLOAD_BUCKET cfg) k);
          "status" := VStr "uploaded";
          "bucket" := VStr "upload" ]}))
          ∨ (∃ k o,
               objects (service w) !! (PROCESSED_BUCKET cfg, k) = Some o
               ∧ startswith "processed/" k = true
               ∧ e = VDict {[ "file_id" := VStr (default "unknown" (split "/" k !! 2%nat));
                              "key" := VStr k;
                              "size" := VInt (size_of o);
                              "last_modified" := VStr (last_modified (PROCESSED_BUCKET cfg) k);
                              "status" := VStr "processed";
                              "bucket" := VStr "processed" ]}).
Proof.
  intros Hq. destruct (list_files_run w Hq) as (ups & w' & Hrun & Hall & Hobj).
  cbv zeta in Hrun. eexists _, w'. split; [exact Hrun|]. split; [exact Hobj|].
  set (lU := listing (objects (service w)) (UPLOAD_BUCKET cfg) "uploads/") in *.
  set (lP := listing (objects (service w)) (PROCESSED_BUCKET cfg) "processed/") in *.
  split.
  - apply NoDup_app. split; [|split].
    + eapply uploaded_entries_NoDup; [exact Hall | apply NoDup_listing_keys].
    + intros e Hin HinP.
      apply list_elem_of_lookup in Hin as [i Hi].
      destruct (Forall2_lookup_r _ _ _ _ _ Hall Hi) as (obj & _ & file_id & _ & ->).
      apply list_elem_of_fmap in HinP as (obj' & Heq & _).
      apply (f_equal (λ v, match v with VDict d => d !! "bucket" | _ => None end)) in Heq.
      vm_compute in Heq. discriminate Heq.
    + apply NoDup_fmap_2_strong; [|eapply NoDup_fmap_1, NoDup_listing_keys].
      intros [k o] [k' o'] Hin Hin' Heq.
      apply (f_equal (λ v, match v with VDict d => d !! "key" | _ => None end)) in Heq.
      vm_compute in Heq. injection Heq as <-. apply elem_of_listing in Hin as [Hin _], Hin' as [Hin' _].
      rewrite Hin in Hin'. by injection Hin' as <-.
  - intros e. rewrite elem_of_app. split.
    + intros [Hin | Hin].
      * left. apply list_elem_of_lookup in Hin as [i Hi].
        destruct (Forall2_lookup_r _ _ _ _ _ Hall Hi)
          as ([k o] & Hobj' & file_id & Hsplit & ->).
        apply list_elem_of_lookup_2, elem_of_listing in Hobj' as [Hk Hp].
        by exists k, o, file_id.
      * right. apply list_elem_of_fmap in Hin as ([k o] & -> & Hin).
        apply elem_of_listing in Hin as [Hk Hp]. by exists k, o.
    + intros [(k & o & file_id & Hk & Hp & Hsplit & ->) | (k & o & Hk & Hp & ->)].
      * left. assert (Hin : (k, o) ∈ lU) by by apply elem_of_listing.
        apply list_elem_of_lookup in Hin as [i Hi].
        destruct (Forall2_lookup_l _ _ _ _ _ Hall Hi)
          as (e & He & file_id' & Hsplit' & ->).
        cbn [fst snd] in Hsplit'. rewrite Hsplit in Hsplit'. injection Hsplit' as <-.
        by eapply list_elem_of_lookup_2.
      * right. apply list_elem_of_fmap. exists (k, o). split; [done|].
        by apply elem_of_listing.
Qed.

(** X15.  The identifier that [list_files] reports for a key that
    [get_upload_url] issued, and for the key that the file processor
    gives it in the processed area, is the identifier that was issued,
    as long as the identifier holds no slash. *)
Theorem list_files_recovers_the_issued_identifier (w : Process S3.World)
    (file_id filename : string) :
  first_fault 2 (service w) = None →
  "/"%char ∉ list_ascii_of_string file_id →
  ∃ files w',
    list_files cfg last_modified w
    = (Ret (create_response 200
         {[ "files" := VList files;
            "count" := VInt (Z.of_nat (length files)) ]}), w')
    ∧ (∀ o, objects (service w) !! (UPLOAD_BUCKET cfg, upload_key file_id filename) = Some o →
            (VDict {[ "file_id" := VStr file_id;
          "key" := VStr (upload_key file_id filename);
          "size" := VInt (size_of o);
          "last_modified" := VStr (last_modified (UPLOAD_BUCKET cfg) (upload_key file_id filename));
          "status" := VStr "uploaded";
          "bucket" := VStr "upload" ]}) ∈ files)
    ∧ (∀ o, objects (service w)
              !! (PROCESSED_BUCKET cfg, "processed/" +:+ upload_key file_id filename) = Some o →
            VDict {[ "file_id" := VStr file_id;
                     "key" := VStr ("processed/" +:+ upload_key file_id filename);
                     "size" := VInt (size_of o);
                     "last_modified" :=
                       VStr (last_modified (PROCESSED_BUCKET cfg)
                               ("processed/" +:+ upload_key file_id filename));
                     "status" := VStr "processed";
                     "bucket" := VStr "processed" ]} ∈ files).
Proof.
  intros Hq Hfree. destruct (list_files_run w Hq) as (ups & w' & Hrun & Hall & _).
  cbv zeta in Hrun. eexists _, w'. split; [exact Hrun|]. split.
  - intros o Ho. apply elem_of_app. left.
    assert (Hin : (upload_key file_id filename, o)
                  ∈ listing (objects (service w)) (UPLOAD_BUCKET cfg) "uploads/").
    { apply elem_of_listing. split; [done|]. apply startswith_app. }
    apply list_elem_of_lookup in Hin as [i Hi].
    destruct (Forall2_lookup_l _ _ _ _ _ Hall Hi) as (e & He & file_id' & Hsplit & ->).
    cbn [fst snd] in Hsplit. rewrite split_upload_key in Hsplit by done.
    injection Hsplit as <-. by eapply list_elem_of_lookup_2.
  - intros o Ho. apply elem_of_app. right. apply list_elem_of_fmap.
    exists ("processed/" +:+ upload_key file_id filename, o). split.
    + unfold processed_entry. cbn [fst snd]. by rewrite split_processed_key.
    + apply elem_of_listing. split; [done|]. apply startswith_app.
Qed.

End ListFiles.

Section FileInfo.
Import Py S3 Env Http UploadApi FileRegistry.
Variable cfg : Config.
Variable last_modified : string → string → string.

(** One guarded search of [get_file_info]: it never raises, and finds
    the first listed object when neither the listing nor [head_object]
    fails. *)
Lemma find_info_guarded (file_id bucket prefix status label : string)
    (w : Process S3.World) :
  ∃ found s',
    on_service (try_except (find_info last_modified file_id bucket prefix status label)
                  (λ _, ret None)) w
    = (Ret found, MkProcess (runtime w) s')
    ∧ objects s' = objects (service w)
    ∧ (∀ m fs, faults (service w) = Some m :: fs → found = None ∧ faults s' = fs)
    ∧ (faults (service w) = [] → faults s' = [])
    ∧ (¬ stored_under (service w) bucket prefix →
       found = None
       ∧ faults s' = tail (faults (service w)))
    ∧ (∀ response, found = Some response →
       ∃ k o,
         objects (service w) !! (bucket, k) = Some o
         ∧ startswith prefix k = true
         ∧ response
           = create_response 200
               {[ "file_id" := VStr file_id;
                  "key" := VStr k;
                  "size" := VInt (size_of o);
                  "last_modified" := VStr (last_modified bucket k);
                  "content_type" := VStr (ContentType o);
                  "metadata" := VDict (VStr <$> Metadata o);
                  "status" := VStr status;
                  "bucket" := VStr label ]})
    ∧ (first_fault 2 (service w) = None → stored_under (service w) bucket prefix →
       is_Some found).
Proof.
  set (c1 := ListObjectsV2 bucket prefix).
  unfold on_service, try_except, find_info, bind.
  rewrite list_objects_v2_listing. fold c1.
  destruct (next_fault (service w)) as [m|] eqn:F1.
  { eexists None, _. split; [reflexivity|]. split; [reflexivity|].
    split; [|split; [|split; [|split]]].
    - intros m' fs Hfs. cbn [faults after_request]. by rewrite Hfs.
    - intros Hfs. cbn [faults after_request]. by rewrite Hfs.
    - done.
    - by intros ? [=].
    - rewrite (first_fault_S 1 c1), F1. by intros [=]. }
  destruct (listing (objects (service w)) bucket prefix) as [|[k o] l] eqn:E.
  { eexists None, _. split; [reflexivity|]. split; [reflexivity|].
    split; [|split; [|split; [|split]]].
    - intros m' fs Hfs. unfold next_fault in F1. by rewrite Hfs in F1.
    - intros Hfs. cbn [faults after_request]. by rewrite Hfs.
    - done.
    - by intros ? [=].
    - intros _ Hst. apply listing_nil in E. by destruct E. }
  assert (Hin : (k, o) ∈ listing (objects (service w)) bucket prefix)
    by (rewrite E; apply list_elem_of_here).
  apply elem_of_listing in Hin as [Hk Hp].
  rewrite head_object_run. cbn [fst snd].
  change (objects (after_request c1 (service w))) with (objects (service w)).
  rewrite Hk.
  destruct (next_fault (after_request c1 (service w))) as [m|] eqn:F2.
  { eexists None, _. split; [reflexivity|]. split; [reflexivity|].
    split; [|split; [|split; [|split]]].
    - intros m' fs Hfs. unfold next_fault in F1. by rewrite Hfs in F1.
    - intros Hfs. cbn [faults after_request]. by rewrite Hfs.
    - intros Hno. destruct Hno. by exists k, o.
    - by intros ? [=].
    - rewrite (first_fault_S 1 c1), F1, (first_fault_S 0 (HeadObject bucket k)), F2.
      by intros [=]. }
  eexists (Some _), _. split; [reflexivity|]. split; [reflexivity|].
  split; [|split; [|split; [|split]]].
  - intros m' fs Hfs. unfold next_fault in F1. by rewrite Hfs in F1.
  - intros Hfs. cbn [faults after_request]. by rewrite Hfs.
  - intros Hno. destruct Hno. by exists k, o.
  - intros response [= <-]. by exists k, o.
  - by eexists.
Qed.

Lemma first_fault_faults n (s s' : S3.World) :
  faults s = faults s' → first_fault n s = first_fault n s'.
Proof. unfold first_fault. by intros ->. Qed.

Lemma first_fault_mono n (s : S3.World) :
  first_fault (S n) s = None → first_fault n s = None.
Proof.
  revert s. induction n as [|n IH]; intros s H; [done|].
  rewrite (first_fault_S (S n) (ListObjectsV2 "" "")) in H.
  rewrite (first_fault_S n (ListObjectsV2 "" "")).
  destruct (next_fault s); [done|]. by apply IH.
Qed.

Lemma get_file_info_run (file_id : string) (w : Process S3.World) found1 s1 found2 s2 :
  file_id ≠ "" →
  on_service (try_except (find_info last_modified file_id (UPLOAD_BUCKET cfg)
                            ("uploads/" +:+ file_id +:+ "/") "uploaded" "upload")
                (λ _, ret None)) w
  = (Ret found1, MkProcess (runtime w) s1) →
  on_service (try_except (find_info last_modified file_id (PROCESSED_BUCKET cfg)
                            ("processed/uploads/" +:+ file_id +:+ "/")
                            "processed" "processed")
                (λ _, ret None)) (MkProcess (runtime w) s1)
  = (Ret found2, MkProcess (runtime w) s2) →
  get_file_info cfg last_modified file_id w
  = match found1 with
    | Some response => (Ret response, MkProcess (runtime w) s1)
    | None =>
        (Ret (default (create_response 404
                         {[ "error" := VStr ("File " +:+ file_id +:+ " not found") ]})
                found2),
         MkProcess (runtime w) s2)
    end.
Proof.
  intros Hid Hrun1 Hrun2. unfold get_file_info.
  rewrite (proj2 (String.eqb_neq _ _) Hid).
  unfold try_except at 1, bind at 1. rewrite Hrun1.
  destruct found1 as [response|]; [reflexivity|].
  unfold bind at 1. rewrite Hrun2. by destruct found2.
Qed.

(** X16.  [get_file_info] for a non-empty identifier, with a store that fails
    none of its calls: an object under uploads/{file_id}/ of the upload
    bucket is reported as uploaded, whatever the processed bucket
    holds; otherwise an object under processed/uploads/{file_id}/ of the
    processed bucket is reported as processed; otherwise the answer is
    404.  The store is not written. *)
Theorem get_file_info_reports_where_the_file_is (file_id : string)
    (w : Process S3.World) :
  let pU := "uploads/" +:+ file_id +:+ "/" in
  let pP := "processed/uploads/" +:+ file_id +:+ "/" in
  let info (bucket k : string) (o : Object) (status label : string) :=
    create_response 200
      {[ "file_id" := VStr file_id;
         "key" := VStr k;
         "size" := VInt (size_of o);
         "last_modified" := VStr (last_modified bucket k);
         "content_type" := VStr (ContentType o);
         "metadata" := VDict (VStr <$> Metadata o);
         "status" := VStr status;
         "bucket" := VStr label ]} in
  file_id ≠ "" →
  first_fault 3 (service w) = None →
  ∃ response w',
    get_file_info cfg last_modified file_id w = (Ret response, w')
    ∧ objects (service w') = objects (service w)
    ∧ (stored_under (service w) (UPLOAD_BUCKET cfg) pU →
       ∃ k o, objects (service w) !! (UPLOAD_BUCKET cfg, k) = Some o
              ∧ startswith pU k = true
              ∧ response = info (UPLOAD_BUCKET cfg) k o "uploaded" "upload")
    ∧ (¬ stored_under (service w) (UPLOAD_BUCKET cfg) pU →
       stored_under (service w) (PROCESSED_BUCKET cfg) pP →
       ∃ k o, objects (service w) !! (PROCESSED_BUCKET cfg, k) = Some o
              ∧ startswith pP k = true
              ∧ response = info (PROCESSED_BUCKET cfg) k o "processed" "processed")
    ∧ (¬ stored_under (service w) (UPLOAD_BUCKET cfg) pU →
       ¬ stored_under (service w) (PROCESSED_BUCKET cfg) pP →
       response = create_response 404
                    {[ "error" := VStr ("File " +:+ file_id +:+ " not found") ]}).
Proof.
  intros pU pP info Hid Hq.
  destruct (find_info_guarded file_id (UPLOAD_BUCKET cfg) pU "uploaded" "upload" w)
    as (found1 & s1 & Hrun1 & Hobj1 & _ & _ & Hno1 & Hsome1 & Hfound1).
  destruct (find_info_guarded file_id (PROCESSED_BUCKET cfg) pP "processed" "processed"
              (MkProcess (runtime w) s1))
    as (found2 & s2 & Hrun2 & Hobj2 & _ & _ & Hno2 & Hsome2 & Hfound2).
  cbn [service runtime] in Hrun2, Hobj2, Hno2, Hsome2, Hfound2.
  assert (Hst : ∀ b p, stored_under s1 b p ↔ stored_under (service w) b p).
  { intros b p. unfold stored_under. by rewrite Hobj1. }
  rewrite (get_file_info_run file_id w found1 s1 found2 s2 Hid Hrun1 Hrun2).
  destruct found1 as [r1|].
  - eexists _, _. split; [reflexivity|]. split; [exact Hobj1|].
    destruct (Hsome1 r1 eq_refl) as (k & o & Hk & Hp & ->).
    split; [|split].
    + intros _. by exists k, o.
    + intros Hno. destruct Hno. by exists k, o.
    + intros Hno. destruct Hno. by exists k, o.
  - assert (HnoU : ¬ stored_under (service w) (UPLOAD_BUCKET cfg) pU).
    { intros HU. destruct Hfound1 as [? [=]]; [by apply first_fault_mono | done]. }
    destruct (Hno1 HnoU) as [_ Hf1].
    assert (Hq2 : first_fault 2 s1 = None).
    { rewrite (first_fault_S 2 (ListObjectsV2 (UPLOAD_BUCKET cfg) pU)) in Hq.
      destruct (next_fault (service w)); [done|].
      by rewrite (first_fault_faults 2 s1
                    (after_request (ListObjectsV2 (UPLOAD_BUCKET cfg) pU) (service w))). }
    eexists _, _. split; [reflexivity|]. split; [cbn [service]; by rewrite Hobj2, Hobj1|].
    split; [done|]. split.
    + intros _ HP. destruct Hfound2 as [r2 ->]; [done | by apply Hst |].
      destruct (Hsome2 r2 eq_refl) as (k & o & Hk & Hp & ->).
      rewrite Hobj1 in Hk. by exists k, o.
    + intros _ HnoP. destruct (Hno2 (λ H, HnoP (proj1 (Hst _ _) H))) as [-> _].
      reflexivity.
Qed.

(** X17.  [get_file_info] hides the failures of the store: for a non-empty
    identifier it answers 200 or 404, never 500, it writes nothing, and
    when both listings fail the answer is 404, whatever is stored. *)
Theorem get_file_info_reports_failures_as_not_found (file_id : string)
    (w : Process S3.World) :
  file_id ≠ "" →
  ∃ response w',
    get_file_info cfg last_modified file_id w = (Ret response, w')
    ∧ objects (service w') = objects (service w)
    ∧ (statusCode response = 200 ∨ statusCode response = 404)
    ∧ (∀ m1 m2 fs, faults (service w) = Some m1 :: Some m2 :: fs →
       response = create_response 404
                    {[ "error" := VStr ("File " +:+ file_id +:+ " not found") ]}).
Proof.
  intros Hid.
  destruct (find_info_guarded file_id (UPLOAD_BUCKET cfg)
              ("uploads/" +:+ file_id +:+ "/") "uploaded" "upload" w)
    as (found1 & s1 & Hrun1 & Hobj1 & Hfail1 & _ & _ & Hsome1 & _).
  destruct (find_info_guarded file_id (PROCESSED_BUCKET cfg)
              ("processed/uploads/" +:+ file_id +:+ "/") "processed" "processed"
              (MkProcess (runtime w) s1))
    as (found2 & s2 & Hrun2 & Hobj2 & Hfail2 & _ & _ & Hsome2 & _).
  cbn [service runtime] in Hrun2, Hobj2, Hfail2, Hsome2.
  rewrite (get_file_info_run file_id w found1 s1 found2 s2 Hid Hrun1 Hrun2).
  destruct found1 as [r1|].
  - eexists _, _. split; [reflexivity|]. split; [exact Hobj1|]. split.
    + left. by destruct (Hsome1 r1 eq_refl) as (k & o & _ & _ & ->).
    + intros m1 m2 fs Hfs. by destruct (Hfail1 m1 (Some m2 :: fs) Hfs) as [[=] _].
  - eexists _, _. split; [reflexivity|]. split; [cbn [service]; by rewrite Hobj2, Hobj1|]. split.
    + destruct found2 as [r2|]; [left | by right].
      by destruct (Hsome2 r2 eq_refl) as (k & o & _ & _ & ->).
    + intros m1 m2 fs Hfs. destruct (Hfail1 m1 (Some m2 :: fs) Hfs) as [_ Hf1].
      by destruct (Hfail2 m2 fs Hf1) as [-> _].
Qed.

Lemma get_processing_status_run (file_id : string) (w : Process S3.World) :
  file_id ≠ "" →
  first_fault 2 (service w) = None →
  ∃ w',
    get_processing_status cfg file_id w
    = (Ret (create_response 200
         {[ "file_id" := VStr file_id;
            "status" :=
              VStr (if has_contents (listing (objects (service w)) (PROCESSED_BUCKET cfg)
                                       ("processed/uploads/" +:+ file_id +:+ "/"))
                    then "completed"
                    else if has_contents (listing (objects (service w)) (UPLOAD_BUCKET cfg)
                                            ("uploads/" +:+ file_id +:+ "/"))
                         then "processing" else "not_found");
            "message" :=
              VStr (if has_contents (listing (objects (service w)) (PROCESSED_BUCKET cfg)
                                       ("processed/uploads/" +:+ file_id +:+ "/"))
                    then "File processing completed"
                    else if has_contents (listing (objects (service w)) (UPLOAD_BUCKET cfg)
                                            ("uploads/" +:+ file_id +:+ "/"))
                         then "File is being processed" else "File not found") ]}), w').
Proof.
  intros Hid Hq.
  set (c1 := ListObjectsV2 (UPLOAD_BUCKET cfg) ("uploads/" +:+ file_id +:+ "/")).
  rewrite (first_fault_S 1 c1) in Hq.
  destruct (next_fault (service w)) eqn:F1; [done|].
  rewrite (first_fault_S 0 c1) in Hq.
  destruct (next_fault (after_request c1 (service w))) eqn:F2; [done|].
  unfold get_processing_status, try_except, bind, on_service.
  rewrite (proj2 (String.eqb_neq _ _) Hid).
  rewrite list_objects_v2_listing, F1. cbn [service runtime].
  rewrite list_objects_v2_listing. fold c1. rewrite F2.
  change (objects (after_request c1 (service w))) with (objects (service w)).
  destruct (has_contents (listing _ (PROCESSED_BUCKET cfg) _));
    [|destruct (has_contents (listing _ (UPLOAD_BUCKET cfg) _))]; by eexists.
Qed.

(** X18.  While an object of the identifier lies in both areas, [get_file_info]
    and [get_processing_status] disagree: the first reports the file as
    uploaded, in the upload bucket, the second as completed. *)
Theorem file_in_both_areas_is_uploaded_and_completed (file_id : string)
    (w : Process S3.World) :
  file_id ≠ "" →
  first_fault 2 (service w) = None →
  stored_under (service w) (UPLOAD_BUCKET cfg) ("uploads/" +:+ file_id +:+ "/") →
  stored_under (service w) (PROCESSED_BUCKET cfg)
    ("processed/uploads/" +:+ file_id +:+ "/") →
  ∃ info w1 w2,
    get_file_info cfg last_modified file_id w = (Ret info, w1)
    ∧ statusCode info = 200
    ∧ Http.body info !! "status" = Some (VStr "uploaded")
    ∧ Http.body info !! "bucket" = Some (VStr "upload")
    ∧ get_processing_status cfg file_id w
      = (Ret (create_response 200
           {[ "file_id" := VStr file_id;
              "status" := VStr "completed";
              "message" := VStr "File processing completed" ]}), w2).
Proof.
  intros Hid Hq HU HP.
  destruct (find_info_guarded file_id (UPLOAD_BUCKET cfg)
              ("uploads/" +:+ file_id +:+ "/") "uploaded" "upload" w)
    as (found1 & s1 & Hrun1 & _ & _ & _ & _ & Hsome1 & Hfound1).
  destruct (find_info_guarded file_id (PROCESSED_BUCKET cfg)
              ("processed/uploads/" +:+ file_id +:+ "/") "processed" "processed"
              (MkProcess (runtime w) s1))
    as (found2 & s2 & Hrun2 & _).
  destruct (Hfound1 Hq HU) as [r1 ->].
  destruct (Hsome1 r1 eq_refl) as (k & o & _ & _ & ->).
  destruct (get_processing_status_run file_id w Hid Hq) as [w2 Hst].
  apply has_contents_stored_under in HP. fold (listing (objects (service w))
    (PROCESSED_BUCKET cfg) ("processed/uploads/" +:+ file_id +:+ "/")) in HP.
  rewrite HP in Hst.
  eexists _, _, w2. split; [exact (get_file_info_run file_id w _ s1 found2 s2 Hid Hrun1 Hrun2)|].
  split; [reflexivity|]. split; [reflexivity|]. split; [reflexivity|]. exact Hst.
Qed.

End FileInfo.

(* ===================================================================== *)
(** * From the upload to the status: the processor and the registry       *)
(* ===================================================================== *)

Section UploadToStatus.
Import Py S3 Env Http UploadApi FileRegistry.
Variable cfg : Config.









End UploadToStatus.

Section RegistryWitnesses.
Import Py S3 Env Http UploadApi FileRegistry.

Lemma list_files_lists_both_areas_witness :
  ∃ files w',
    list_files Sample.cfg Sample.last_modified (Sample.registry_process [])
    = (Ret (create_response 200
         {[ "files" := VList files;
            "count" := VInt (Z.of_nat (length files)) ]}), w')
    ∧ NoDup files
    ∧ VDict {[ "file_id" := VStr "7f3a";
               "key" := VStr "uploads/7f3a/report.pdf";
               "size" := VInt 8;
               "last_modified" := VStr "2024-05-01T11:59:00+00:00";
               "status" := VStr "uploaded";
               "bucket" := VStr "upload" ]} ∈ files.
Proof.
  destruct (list_files_lists_both_areas Sample.cfg Sample.last_modified
              (Sample.registry_process []))
    as (files & w' & Hrun & _ & Hnd & Hin); [reflexivity|].
  exists files, w'. split; [exact Hrun|]. split; [exact Hnd|].
  apply Hin. left. exists Sample.report, Sample.pdf, "7f3a".
  repeat split; reflexivity.
Defined.

Lemma list_files_recovers_the_issued_identifier_witness :
  ∃ files w',
    list_files Sample.cfg Sample.last_modified (Sample.registry_process [])
    = (Ret (create_response 200
         {[ "files" := VList files;
            "count" := VInt (Z.of_nat (length files)) ]}), w')
    ∧ VDict {[ "file_id" := VStr "7f3a";
               "key" := VStr "processed/uploads/7f3a/report.pdf";
               "size" := VInt 8;
               "last_modified" := VStr "2024-05-01T11:59:00+00:00";
               "status" := VStr "processed";
               "bucket" := VStr "processed" ]} ∈ files.
Proof.
  destruct (list_files_recovers_the_issued_identifier Sample.cfg Sample.last_modified
              (Sample.registry_process []) "7f3a" "report.pdf")
    as (files & w' & Hrun & _ & Hin); [reflexivity | |].
  - vm_compute. intros H.
    by repeat (apply elem_of_cons in H as [H|H]; [done|]); apply elem_of_nil in H.
  - exists files, w'. split; [exact Hrun|]. exact (Hin Sample.pdf eq_refl).
Defined.

Lemma get_file_info_reports_where_the_file_is_witness :
  ∃ w',
    get_file_info Sample.cfg Sample.last_modified "7f3a" (Sample.registry_process [])
    = (Ret (create_response 200
         {[ "file_id" := VStr "7f3a";
            "key" := VStr "uploads/7f3a/report.pdf";
            "size" := VInt 8;
            "last_modified" := VStr "2024-05-01T11:59:00+00:00";
            "content_type" := VStr "application/pdf";
            "metadata" := VDict ∅;
            "status" := VStr "uploaded";
            "bucket" := VStr "upload" ]}), w').
Proof.
  destruct (get_file_info_reports_where_the_file_is Sample.cfg Sample.last_modified
              "7f3a" (Sample.registry_process []))
    as (response & w' & Hrun & _ & HU & _); [done | reflexivity |].
  destruct HU as (k & o & Hk & Hp & ->).
  { exists Sample.report, Sample.pdf. split; reflexivity. }
  exists w'. rewrite Hrun.
  change (objects (service (Sample.registry_process [])))
    with (<[("upload-bucket", Sample.report) := Sample.pdf]>
            ({[ ("processed-bucket", Sample.processed_report) := Sample.pdf ]}
             : gmap (string * string) Object)) in Hk.
  apply lookup_insert_Some in Hk as [[[= <-] <-] | [_ Hk]]; [reflexivity|].
  by apply lookup_singleton_Some in Hk as [[=] _].
Defined.

Lemma get_file_info_reports_failures_as_not_found_witness :
  ∃ w',
    get_file_info Sample.cfg Sample.last_modified "7f3a"
      (Sample.registry_process [Some "Service Unavailable"; Some "Service Unavailable"])
    = (Ret (create_response 404 {[ "error" := VStr "File 7f3a not found" ]}), w')
    ∧ objects (service w') = objects (Sample.both_areas []).
Proof.
  destruct (get_file_info_reports_failures_as_not_found Sample.cfg Sample.last_modified
              "7f3a"
              (Sample.registry_process
                 [Some "Service Unavailable"; Some "Service Unavailable"]))
    as (response & w' & Hrun & Hobj & _ & Hout); [done|].
  rewrite (Hout "Service Unavailable" "Service Unavailable" [] eq_refl) in Hrun.
  exists w'. split; [exact Hrun | exact Hobj].
Defined.

Lemma file_in_both_areas_is_uploaded_and_completed_witness :
  ∃ info w1 w2,
    get_file_info Sample.cfg Sample.last_modified "7f3a" (Sample.registry_process [])
    = (Ret info, w1)
    ∧ Http.body info !! "status" = Some (VStr "uploaded")
    ∧ get_processing_status Sample.cfg "7f3a" (Sample.registry_process [])
      = (Ret (create_response 200
           {[ "file_id" := VStr "7f3a";
              "status" := VStr "completed";
              "message" := VStr "File processing completed" ]}), w2).
Proof.
  destruct (file_in_both_areas_is_uploaded_and_completed Sample.cfg Sample.last_modified
              "7f3a" (Sample.registry_process []))
    as (info & w1 & w2 & Hinfo & _ & Hstatus & _ & Hst); [done | reflexivity | | |].
  - exists Sample.report, Sample.pdf. split; reflexivity.
  - exists Sample.processed_report, Sample.pdf. split; reflexivity.
  - exists info, w1, w2. split; [exact Hinfo|]. split; [exact Hstatus | exact Hst].
Defined.



End RegistryWitnesses.

(* ===================================================================== *)
(** * More on the item API                                                *)
(* ===================================================================== *)

Section ItemApiMore.
Import Py Http ItemApi.

Variable display_of_iso : string → option string.

Lemma delete_item_run id w :
  DynamoDB.delete_item id w
  = match DynamoDB.next_fault w with
    | Some m => (Raise (DynamoDB.client_error m),
                 DynamoDB.after_request (DynamoDB.DeleteItem id) w)
    | None => (Ret tt,
               DynamoDB.set_items (delete id (DynamoDB.items w))
                 (DynamoDB.after_request (DynamoDB.DeleteItem id) w))
    end.
Proof.
  unfold DynamoDB.delete_item, bind, DynamoDB.request, DynamoDB.write_items.
  destruct (DynamoDB.next_fault w); reflexivity.
Qed.

Lemma api_get_item_run id (w : Process DynamoDB.World) :
  DynamoDB.next_fault (service w) = None →
  get_item display_of_iso id w
  = (Ret (match DynamoDB.items (service w) !! id with
          | Some it => create_response 200 {[ "item" := VDict (format_item display_of_iso it) ]}
          | None => create_response 404
                      {[ "error" := VStr ("Item with id " +:+ id +:+ " not found") ]}
          end),
     MkProcess (runtime w) (DynamoDB.after_request (DynamoDB.GetItem id) (service w))).
Proof.
  intros F. unfold get_item, try_except, bind, on_service.
  rewrite get_item_run, F. by destruct (DynamoDB.items (service w) !! id).
Qed.


(** X23.  [delete_item] with a table that fails no call.  An item that is
    there is removed, and only it: the answer is 200 and reading the
    identifier afterwards gives 404.  For an identifier that is not
    there the answer is 404 and the table is asked nothing but the
    existence check. *)
Theorem delete_item_removes_exactly_that_item (item_id : string)
    (w : Process DynamoDB.World) :
  DynamoDB.faults (service w) = [] →
  ∃ resp w',
    delete_item item_id w = (Ret resp, w')
    ∧ (∀ it, DynamoDB.items (service w) !! item_id = Some it →
         resp = create_response 200
                  {[ "message" := VStr ("Item " +:+ item_id +:+ " deleted successfully");
                     "deleted_id" := VStr item_id ]}
         ∧ DynamoDB.items (service w') = delete item_id (DynamoDB.items (service w))
         ∧ ∃ w'',
             get_item display_of_iso item_id w'
             = (Ret (create_response 404
                  {[ "error" := VStr ("Item with id " +:+ item_id +:+ " not found") ]}),
                w''))
    ∧ (DynamoDB.items (service w) !! item_id = None →
         resp = create_response 404
                  {[ "error" := VStr ("Item with id " +:+ item_id +:+ " not found") ]}
         ∧ DynamoDB.items (service w') = DynamoDB.items (service w)
         ∧ DynamoDB.calls (service w')
           = DynamoDB.calls (service w) ++ [DynamoDB.GetItem item_id]).
Proof.
  intros Hf.
  assert (F : DynamoDB.next_fault (service w) = None)
    by (unfold DynamoDB.next_fault; by rewrite Hf).
  unfold delete_item, try_except, bind, on_service.
  rewrite get_item_run, F. cbn [service runtime].
  change (DynamoDB.items (DynamoDB.after_request _ ?s)) with (DynamoDB.items s).
  destruct (DynamoDB.items (service w) !! item_id) as [it|] eqn:E.
  - assert (F2 : DynamoDB.next_fault
                   (DynamoDB.after_request (DynamoDB.GetItem item_id) (service w)) = None).
    { unfold DynamoDB.next_fault. cbn [DynamoDB.faults DynamoDB.after_request].
      by rewrite Hf. }
    rewrite delete_item_run. cbn [service runtime]. rewrite F2.
    eexists _, _. split; [reflexivity|]. split; [|done].
    intros ? _. split; [reflexivity|]. split; [reflexivity|].
    eexists. rewrite api_get_item_run.
    + cbn [service DynamoDB.items DynamoDB.set_items]. by rewrite lookup_delete_eq.
    + unfold DynamoDB.next_fault.
      cbn [service DynamoDB.faults DynamoDB.after_request DynamoDB.set_items].
      by rewrite Hf.
  - eexists _, _. split; [reflexivity|]. split; [done|].
    intros _. repeat split.
Qed.

(** X24.  [update_item] never creates an item.  Whatever the body and whatever
    the table does, a call for an identifier that is not in the table
    leaves the table's items as they are, asks it nothing but the
    existence check, and answers 400, 404 or 500; with a body that is
    not empty and an existence check that goes through, 404. *)
Theorem update_item_never_creates (item_id : string) (body : Value)
    (w : Process DynamoDB.World) :
  DynamoDB.items (service w) !! item_id = None →
  ∃ resp w',
    update_item display_of_iso item_id body w = (Ret resp, w')
    ∧ DynamoDB.items (service w') = DynamoDB.items (service w)
    ∧ (DynamoDB.calls (service w') = DynamoDB.calls (service w)
       ∨ DynamoDB.calls (service w')
         = DynamoDB.calls (service w) ++ [DynamoDB.GetItem item_id])
    ∧ (statusCode resp = 400 ∨ statusCode resp = 404 ∨ statusCode resp = 500)
    ∧ (truthy body = true → DynamoDB.next_fault (service w) = None →
       resp = create_response 404
                {[ "error" := VStr ("Item with id " +:+ item_id +:+ " not found") ]}).
Proof.
  intros Habs. unfold update_item, try_except, bind, on_service.
  destruct (truthy body) eqn:Ht; cbn [negb].
  - rewrite get_item_run.
    destruct (DynamoDB.next_fault (service w)) as [m|] eqn:F.
    + eexists _, _. split; [reflexivity|]. split; [reflexivity|].
      split; [by right|]. split; [by right; right | done].
    + cbn [service runtime].
      change (DynamoDB.items (DynamoDB.after_request _ ?s)) with (DynamoDB.items s).
      rewrite Habs.
      eexists _, _. split; [reflexivity|]. split; [reflexivity|].
      split; [by right|]. split; [by right; left | done].
  - eexists _, _. split; [reflexivity|]. split; [reflexivity|].
    split; [by left|]. split; [by left | done].
Qed.


End ItemApiMore.

Section ItemApiMoreWitnesses.
Import Py Http ItemApi.



Lemma delete_item_removes_exactly_that_item_witness :
  ∃ w' w'',
    delete_item "42" Sample.item_process
    = (Ret (create_response 200
         {[ "message" := VStr "Item 42 deleted successfully";
            "deleted_id" := VStr "42" ]}), w')
    ∧ DynamoDB.items (service w') !! "42" = None
    ∧ is_Some (DynamoDB.items (service w') !! "43")
    ∧ get_item Sample.display_of_iso "42" w'
      = (Ret (create_response 404 {[ "error" := VStr "Item with id 42 not found" ]}), w'').
Proof.
  destruct (delete_item_removes_exactly_that_item Sample.display_of_iso "42"
              Sample.item_process eq_refl)
    as (resp & w' & Hrun & Hsome & _).
  destruct (Hsome (Sample.item "42" "first" "2024-04-01T09:00:00.000000") eq_refl)
    as (-> & Hitems & w'' & Hget).
  exists w', w''. split; [exact Hrun|]. rewrite Hitems.
  split; [apply lookup_delete_eq|]. split; [|exact Hget].
  rewrite lookup_delete_ne by done. by eexists.
Defined.

Lemma update_item_never_creates_witness :
  ∃ w',
    update_item Sample.display_of_iso "no-such-id" (VDict {[ "name" := VStr "x" ]})
      Sample.item_process
    = (Ret (create_response 404
         {[ "error" := VStr "Item with id no-such-id not found" ]}), w')
    ∧ DynamoDB.items (service w') = DynamoDB.items (service Sample.item_process).
Proof.
  destruct (update_item_never_creates Sample.display_of_iso "no-such-id"
              (VDict {[ "name" := VStr "x" ]}) Sample.item_process eq_refl)
    as (resp & w' & Hrun & Hitems & _ & _ & H404).
  rewrite H404 in Hrun; [|reflexivity..].
  exists w'. split; [exact Hrun | exact Hitems].
Defined.


End ItemApiMoreWitnesses.

(* ===================================================================== *)
(** * The routers                                                         *)
(* ===================================================================== *)

Section Routers.
Import Py Http.

Variable json_loads : string → outcome Value.

Lemma parse_body_raises (s : string) (e : Exc) :
  s ≠ "" → json_loads s = Raise e →
  Gateway.parse_body json_loads (Some s) = Raise e.
Proof.
  intros Hs He. unfold Gateway.parse_body.
  by rewrite (proj2 (String.eqb_neq _ _) Hs).
Qed.

(** X26.  The health check of the item API looks at no method and asks the
    table nothing: with a body that parses, or none, it answers 200 with
    the environment and the time of the call.  The body is parsed before
    the route is looked at, so that a body that is not JSON turns the
    health check, like every other route, into a 500 that carries the
    parser's message. *)
Theorem health_check_answers_unless_the_body_is_malformed
    (display_of_iso : string → option string) (environment : string)
    (event : Gateway.Event) (w : Process DynamoDB.World) :
  (Gateway.path event = Some "/health" →
   ∀ body, Gateway.parse_body json_loads (Gateway.body event) = Ret body →
     ItemRouter.lambda_handler display_of_iso json_loads environment event w
     = (Ret (create_response 200
          {[ "status" := VStr "healthy";
             "environment" := VStr environment;
             "timestamp" := VStr (wall_clock (runtime w)) ]}), w))
  ∧ (∀ s e, Gateway.body event = Some s → s ≠ "" → json_loads s = Raise e →
     ItemRouter.lambda_handler display_of_iso json_loads environment event w
     = (Ret (create_response 500
          {[ "error" := VStr "Internal server error";
             "details" := VStr (exc_str e) ]}), w)).
Proof.
  split.
  - intros Hpath body Hbody.
    unfold ItemRouter.lambda_handler, try_except, bind, lift, datetime_now_isoformat.
    by rewrite Hbody, Hpath.
  - intros s e Hs Hne He.
    unfold ItemRouter.lambda_handler, try_except, bind, lift.
    by rewrite Hs, (parse_body_raises s e Hne He).
Qed.

Lemma items_path_is_no_other_route (path : string) :
  startswith "/items/" path = true →
  String.eqb path "/health" = false ∧ String.eqb path "/items" = false.
Proof. intros [t ->]%startswith_inv. split; reflexivity. Qed.

(** X27.  On the paths under /items/ the item router asks for the identifier
    before it looks at the method: without an id among the path
    parameters, or with an empty one, every method is answered 400 and
    the table is asked nothing; with an id, a method other than GET,
    PUT and DELETE is answered 404, again without a call. *)
Theorem item_router_wants_the_id_before_the_method
    (display_of_iso : string → option string) (environment : string)
    (event : Gateway.Event) (body : Value) (w : Process DynamoDB.World) :
  let http_method := default "GET" (Gateway.httpMethod event) in
  let path := default "/" (Gateway.path event) in
  let item_id := default "" (default ∅ (Gateway.pathParameters event) !! "id") in
  startswith "/items/" path = true →
  Gateway.parse_body json_loads (Gateway.body event) = Ret body →
  (item_id = "" →
     ItemRouter.lambda_handler display_of_iso json_loads environment event w
     = (Ret (create_response 400 {[ "error" := VStr "Item ID is required" ]}), w))
  ∧ (item_id ≠ "" → http_method ∉ ["GET"; "PUT"; "DELETE"] →
     ItemRouter.lambda_handler display_of_iso json_loads environment event w
     = (Ret (create_response 404 {[ "error" := VStr "Endpoint not found" ]}), w)).
Proof.
  intros http_method path item_id Hpath Hbody.
  destruct (items_path_is_no_other_route path Hpath) as [Hh Hi].
  unfold ItemRouter.lambda_handler, try_except, bind, lift.
  rewrite Hbody. fold path http_method item_id. rewrite Hh, Hi, Hpath.
  split.
  - intros ->. reflexivity.
  - intros Hid Hm. rewrite (proj2 (String.eqb_neq _ _) Hid).
    rewrite !not_elem_of_cons in Hm. destruct Hm as (HG & HP & HD & _).
    by rewrite (proj2 (String.eqb_neq _ _) HG), (proj2 (String.eqb_neq _ _) HP),
      (proj2 (String.eqb_neq _ _) HD).
Qed.

Lemma registry_paths_are_apart (path : string) :
  (startswith "/files/" path = true →
   String.eqb path "/upload" = false ∧ String.eqb path "/files" = false)
  ∧ (startswith "/download/" path = true →
     String.eqb path "/upload" = false ∧ String.eqb path "/files" = false
     ∧ startswith "/files/" path = false)
  ∧ (startswith "/status/" path = true →
     String.eqb path "/upload" = false ∧ String.eqb path "/files" = false
     ∧ startswith "/files/" path = false ∧ startswith "/download/" path = false).
Proof.
  repeat split; revert H; intros [t ->]%startswith_inv; reflexivity.
Qed.

(** X28.  Through the router of the file registry, a request for the
    information, the deletion, the download URL or the status of a file
    that carries no fileId path parameter is answered 400 by the
    handler it reaches, and the store is asked nothing. *)
Theorem registry_router_refuses_a_missing_file_id (cfg : Env.Config)
    (last_modified : string → string → string)
    (event : Gateway.Event) (body : Value) (w : Process S3.World) :
  let http_method := default "GET" (Gateway.httpMethod event) in
  let path := default "/" (Gateway.path event) in
  Gateway.parse_body json_loads (Gateway.body event) = Ret body →
  default ∅ (Gateway.pathParameters event) !! "fileId" = None →
  (startswith "/files/" path = true ∧ (http_method = "GET" ∨ http_method = "DELETE"))
  ∨ (startswith "/download/" path = true ∧ http_method = "GET")
  ∨ (startswith "/status/" path = true ∧ http_method = "GET") →
  FileRegistry.lambda_handler cfg last_modified json_loads event w
  = (Ret (create_response 400 {[ "error" := VStr "file_id is required" ]}), w).
Proof.
  intros http_method path Hbody Hid Hroute.
  destruct (registry_paths_are_apart path) as (Hfiles & Hdown & Hstat).
  unfold FileRegistry.lambda_handler, FileRegistry.path_file_id, try_except, bind, lift.
  rewrite Hbody, Hid. fold path http_method. cbn [default from_option id].
  destruct Hroute as [[Hp Hm] | [[Hp Hm] | [Hp Hm]]].
  - destruct (Hfiles Hp) as [-> ->]. rewrite Hp. by destruct Hm as [-> | ->].
  - destruct (Hdown Hp) as (-> & -> & ->). by rewrite Hp, Hm.
  - destruct (Hstat Hp) as (-> & -> & -> & ->). by rewrite Hp, Hm.
Qed.

(** X29.  The router of the file registry serves GET, POST and DELETE only:
    every other method is answered 404 on every path, and the store is
    asked nothing. *)
Theorem registry_router_serves_three_methods (cfg : Env.Config)
    (last_modified : string → string → string)
    (event : Gateway.Event) (body : Value) (w : Process S3.World) :
  Gateway.parse_body json_loads (Gateway.body event) = Ret body →
  default "GET" (Gateway.httpMethod event) ∉ ["GET"; "POST"; "DELETE"] →
  FileRegistry.lambda_handler cfg last_modified json_loads event w
  = (Ret (create_response 404 {[ "error" := VStr "Endpoint not found" ]}), w).
Proof.
  intros Hbody Hm.
  rewrite !not_elem_of_cons in Hm. destruct Hm as (HG & HP & HD & _).
  unfold FileRegistry.lambda_handler, try_except, bind, lift.
  rewrite Hbody.
  rewrite (proj2 (String.eqb_neq _ _) HG), (proj2 (String.eqb_neq _ _) HP),
    (proj2 (String.eqb_neq _ _) HD).
  by rewrite !andb_false_r.
Qed.

End Routers.

Section RouterWitnesses.
Import Py Http.

Lemma health_check_answers_unless_the_body_is_malformed_witness :
  ItemRouter.lambda_handler Sample.display_of_iso Sample.json_loads "dev"
    (Sample.request "DELETE" "/health" None (Some "{}")) Sample.item_process
  = (Ret (create_response 200
       {[ "status" := VStr "healthy";
          "environment" := VStr "dev";
          "timestamp" := VStr "2024-05-01T12:00:00.000000" ]}), Sample.item_process)
  ∧ ItemRouter.lambda_handler Sample.display_of_iso Sample.json_loads "dev"
      (Sample.request "GET" "/health" None (Some "{name: third")) Sample.item_process
    = (Ret (create_response 500
         {[ "error" := VStr "Internal server error";
            "details" := VStr "Expecting value: line 1 column 1 (char 0)" ]}),
       Sample.item_process).
Proof.
  split.
  - destruct (health_check_answers_unless_the_body_is_malformed Sample.json_loads
                Sample.display_of_iso "dev"
                (Sample.request "DELETE" "/health" None (Some "{}")) Sample.item_process)
      as [Hok _].
    exact (Hok eq_refl (VDict ∅) eq_refl).
  - destruct (health_check_answers_unless_the_body_is_malformed Sample.json_loads
                Sample.display_of_iso "dev"
                (Sample.request "GET" "/health" None (Some "{name: third"))
                Sample.item_process)
      as [_ Hbad].
    apply (Hbad "{name: third"
             (MkExc "JSONDecodeError" "Expecting value: line 1 column 1 (char 0)"));
      [reflexivity | done | reflexivity].
Defined.

Lemma item_router_wants_the_id_before_the_method_witness :
  ItemRouter.lambda_handler Sample.display_of_iso Sample.json_loads "dev"
    (Sample.request "PATCH" "/items/" None None) Sample.item_process
  = (Ret (create_response 400 {[ "error" := VStr "Item ID is required" ]}),
     Sample.item_process)
  ∧ ItemRouter.lambda_handler Sample.display_of_iso Sample.json_loads "dev"
      (Sample.request "PATCH" "/items/42" (Some {[ "id" := "42" ]}) None)
      Sample.item_process
    = (Ret (create_response 404 {[ "error" := VStr "Endpoint not found" ]}),
       Sample.item_process).
Proof.
  split.
  - destruct (item_router_wants_the_id_before_the_method Sample.json_loads
                Sample.display_of_iso "dev"
                (Sample.request "PATCH" "/items/" None None) VNone Sample.item_process)
      as [Hbad _]; [reflexivity | reflexivity |].
    apply Hbad. reflexivity.
  - destruct (item_router_wants_the_id_before_the_method Sample.json_loads
                Sample.display_of_iso "dev"
                (Sample.request "PATCH" "/items/42" (Some {[ "id" := "42" ]}) None)
                VNone Sample.item_process)
      as [_ Hnone]; [reflexivity | reflexivity |].
    apply Hnone; [done|]. vm_compute. intros H.
    by repeat (apply elem_of_cons in H as [H|H]; [done|]); apply elem_of_nil in H.
Defined.

Lemma registry_router_refuses_a_missing_file_id_witness :
  FileRegistry.lambda_handler Sample.cfg Sample.last_modified Sample.json_loads
    (Sample.request "DELETE" "/files/" None None) (Sample.registry_process [])
  = (Ret (create_response 400 {[ "error" := VStr "file_id is required" ]}),
     Sample.registry_process []).
Proof.
  apply (registry_router_refuses_a_missing_file_id Sample.json_loads Sample.cfg
           Sample.last_modified (Sample.request "DELETE" "/files/" None None) VNone
           (Sample.registry_process [])); [reflexivity | reflexivity |].
  left. split; [reflexivity | by right].
Defined.

Lemma registry_router_serves_three_methods_witness :
  FileRegistry.lambda_handler Sample.cfg Sample.last_modified Sample.json_loads
    (Sample.request "PUT" "/files/7f3a" (Some {[ "fileId" := "7f3a" ]}) (Some "{}"))
    (Sample.registry_process [])
  = (Ret (create_response 404 {[ "error" := VStr "Endpoint not found" ]}),
     Sample.registry_process []).
Proof.
  apply (registry_router_serves_three_methods Sample.json_loads Sample.cfg
           Sample.last_modified
           (Sample.request "PUT" "/files/7f3a" (Some {[ "fileId" := "7f3a" ]}) (Some "{}"))
           (VDict ∅) (Sample.registry_process [])); [reflexivity|].
  vm_compute. intros H.
  by repeat (apply elem_of_cons in H as [H|H]; [done|]); apply elem_of_nil in H.
Defined.

End RouterWitnesses.
